(** * Request handlers of the tutoring marketplace: a shallow embedding

    The handlers of the repository (category loader, search, tutor-post
    creation, dashboard) are embedded as computations in a small state and
    exception monad.  The database, the image library and the framework are
    external collaborators: a handler receives the database as an oracle from
    query text to outcome, and the continuation it is chained with as a
    computation of the same monad. *)

From Stdlib Require Import String Ascii List ZArith Lia Bool DecimalString.
From Stdlib.Strings Require Import Byte.
Import ListNotations.

Local Open Scope Z_scope.
Local Open Scope list_scope.
Local Open Scope string_scope.

(** ** The JavaScript fragment the handlers are written in *)

Module Js.

(** Exceptions a handler can meet: a [TypeError] of the language (a property
    read on [undefined]), the error object the database client hands to a
    query callback, and the error the image library rejects with. *)
Inductive error : Type :=
| TypeError (msg : string)
| DbError (msg : string)
| ImageError (msg : string).

(** [`${err}`]: the name of the error and its message. *)
Definition error_to_string (e : error) : string :=
  match e with
  | TypeError msg => "TypeError: " ++ msg
  | DbError msg => "Error: " ++ msg
  | ImageError msg => "Error: " ++ msg
  end.

Inductive completion (A : Type) : Type :=
| Normal (a : A)
| Throw (e : error).
Arguments Normal {A} a.
Arguments Throw {A} e.

(** State and exception monad: the state survives a throw, as the heap does. *)
Definition M (S A : Type) : Type := S -> completion A * S.

Definition ret {S A} (a : A) : M S A := fun s => (Normal a, s).

Definition throw {S A} (e : error) : M S A := fun s => (Throw e, s).

Definition bind {S A B} (m : M S A) (k : A -> M S B) : M S B :=
  fun s =>
    match m s with
    | (Normal a, s') => k a s'
    | (Throw e, s') => (Throw e, s')
    end.

Definition gets {S A} (f : S -> A) : M S A := fun s => (Normal (f s), s).

(** A call into a library that returns or throws, and leaves the state alone. *)
Definition completed {S A} (c : completion A) : M S A := fun s => (c, s).

Definition modify {S} (f : S -> S) : M S unit := fun s => (Normal tt, f s).

Declare Scope js_scope.
Delimit Scope js_scope with js.
Notation "x <- m ;; k" := (bind m (fun x => k))
  (at level 61, m at next level, right associativity) : js_scope.
Notation "m ;;; k" := (bind m (fun _ => k))
  (at level 61, right associativity) : js_scope.

(** What the database client passes to a query callback: [(err, result)]. *)
Inductive db_outcome (row : Type) : Type :=
| DbErr (err : string)
| DbOk (result : list row).
Arguments DbErr {row} err.
Arguments DbOk {row} result.

(** What [console.log] prints: a line of text, or a value [D] it inspects. *)
Inductive printed (D : Type) : Type :=
| Line (s : string)
| Inspect (d : D).
Arguments Line {D} s.
Arguments Inspect {D} d.

(** The part of the process a handler touches: the request/response pair
    [R], the console, the queries sent to the database (oldest first) and
    the number of times the plain continuation [next] has run. *)
Record world (R D : Type) : Type := mkWorld {
  req : R;
  console : list (printed D);
  queries : list string;
  continued : nat
}.
Arguments mkWorld {R D}.
Arguments req {R D}.
Arguments console {R D}.
Arguments queries {R D}.
Arguments continued {R D}.

Definition start {R D} (r : R) : world R D := mkWorld r [] [] 0%nat.

Section Ops.
Context {R D : Type}.

Definition update (f : R -> R) : M (world R D) unit :=
  modify (fun w => mkWorld (f (req w)) (console w) (queries w) (continued w)).

Definition console_log (line : string) : M (world R D) unit :=
  modify (fun w =>
    mkWorld (req w) (console w ++ [Line line])%list (queries w) (continued w)).

Definition console_inspect (d : D) : M (world R D) unit :=
  modify (fun w =>
    mkWorld (req w) (console w ++ [Inspect d])%list (queries w) (continued w)).

(** [database.query(q, cb)]: the query is sent and [cb] later runs on the
    outcome; the computation that follows is [cb]. *)
Definition database_query {row} (db : string -> db_outcome row) (q : string)
  : M (world R D) (db_outcome row) :=
  fun w => (Normal (db q),
            mkWorld (req w) (console w) (queries w ++ [q])%list (continued w)).

(** The continuation of a middleware chain that only counts its calls. *)
Definition next : M (world R D) unit :=
  modify (fun w => mkWorld (req w) (console w) (queries w) (S (continued w))).
End Ops.

(** [promise.catch(handler)], and [try] / [catch]. *)
Definition catch {S A} (m : M S A) (handler : error -> M S A) : M S A :=
  fun s =>
    match m s with
    | (Normal a, s') => (Normal a, s')
    | (Throw e, s') => handler e s'
    end.

(** [`${n}`] for an integer [n]. *)
Definition number_to_string (n : Z) : string :=
  NilZero.string_of_int (Z.to_int n).

(** [a[i]['name']]: an index out of range reads [undefined], and a property
    read on [undefined] throws. *)
Definition read_at {S A B} (a : list A) (i : nat) (name : string) (get : A -> B)
  : M S B :=
  match nth_error a i with
  | Some x => ret (get x)
  | None =>
      throw (TypeError
        ("Cannot read properties of undefined (reading '" ++ name ++ "')"))
  end.

(** [for (let i = 0; i < n; i++) acc = body(i, acc)], with [n] fixed during
    the loop. *)
Fixpoint for_from {S A} (count : nat) (i : nat) (body : nat -> A -> M S A)
  (acc : A) : M S A :=
  match count with
  | O => ret acc
  | Datatypes.S count' =>
      bind (body i acc) (fun acc' => for_from count' (Datatypes.S i) body acc')
  end.

Definition for_range {S A} (n : nat) (body : nat -> A -> M S A) (acc : A)
  : M S A :=
  for_from n 0%nat body acc.

(** A query parameter or form field is a string, or [undefined] when the
    request does not carry it. *)
Definition param : Type := option string.

(** [`${v}`] *)
Definition template (v : param) : string :=
  match v with
  | Some s => s
  | None => "undefined"
  end.

(** [v === ''] and [v !== ''] *)
Definition is_blank (v : param) : bool :=
  match v with
  | Some s => String.eqb s ""
  | None => false
  end.

(** [Array.prototype.slice(start, end)] on integer arguments: negative
    arguments count from the end, and both are clamped to the array. *)
Definition slice {A} (a : list A) (start end_ : Z) : list A :=
  let len := Z.of_nat (length a) in
  let k := if (start <? 0)%Z then Z.max (len + start) 0 else Z.min start len in
  let final := if (end_ <? 0)%Z then Z.max (len + end_) 0 else Z.min end_ len in
  let count := Z.max (final - k) 0 in
  firstn (Z.to_nat count) (skipn (Z.to_nat k) a).

(** A property that holds [undefined], the string a handler stores as a
    default, or a value of the expected type. *)
Inductive slot (A : Type) : Type :=
| Undefined
| Text (s : string)
| Val (a : A).
Arguments Undefined {A}.
Arguments Text {A} s.
Arguments Val {A} a.

(** [Buffer]: binary data. *)
Definition buffer : Type := list byte.

Definition b64_alphabet : list ascii :=
  list_ascii_of_string
    "ABCDEFGHIJKLMNOPQRSTUVWXYZabcdefghijklmnopqrstuvwxyz0123456789+/".

Definition b64_digit (n : N) : ascii :=
  nth (N.to_nat n) b64_alphabet "="%char.

(** [buf.toString('base64')] *)
Fixpoint to_base64 (bs : buffer) : string :=
  match bs with
  | [] => ""
  | [a] =>
      let a := Byte.to_N a in
      String (b64_digit (N.shiftr a 2))
        (String (b64_digit (N.shiftl (N.land a 3) 4)) "==")
  | [a; b] =>
      let a := Byte.to_N a in
      let b := Byte.to_N b in
      String (b64_digit (N.shiftr a 2))
        (String (b64_digit (N.lor (N.shiftl (N.land a 3) 4) (N.shiftr b 4)))
           (String (b64_digit (N.shiftl (N.land b 15) 2)) "="))
  | a :: b :: c :: rest =>
      let a := Byte.to_N a in
      let b := Byte.to_N b in
      let c := Byte.to_N c in
      String (b64_digit (N.shiftr a 2))
        (String (b64_digit (N.lor (N.shiftl (N.land a 3) 4) (N.shiftr b 4)))
           (String (b64_digit (N.lor (N.shiftl (N.land b 15) 2) (N.shiftr c 6)))
              (String (b64_digit (N.land c 63)) (to_base64 rest))))
  end.

(** [Buffer.from(str)]: the bytes of the text. *)
Definition buffer_from (s : string) : buffer := list_byte_of_string s.

End Js.

Import Js.
Local Open Scope js_scope.

(** ** The search model: category loader *)

Module Categories.

(** A row of the [major] table. *)
Record major : Type := mkMajor {
  major_id : Z;
  major_short_name : string;
  major_long_name : string
}.

(** The properties [getSearchCategories] writes: two on [request], two on
    [response.locals].  A property not assigned yet reads [undefined]
    ([None]). *)
Record exchange : Type := mkExchange {
  majors_short_name : option (list string);
  majors_long_name : option (list string);
  searchCategoriesShortName : option (list string);
  searchCategoriesLongName : option (list string)
}.

Definition set_majors_short_name (v : option (list string)) (x : exchange) :=
  {| majors_short_name := v;
     majors_long_name := majors_long_name x;
     searchCategoriesShortName := searchCategoriesShortName x;
     searchCategoriesLongName := searchCategoriesLongName x |}.

Definition set_majors_long_name (v : option (list string)) (x : exchange) :=
  {| majors_short_name := majors_short_name x;
     majors_long_name := v;
     searchCategoriesShortName := searchCategoriesShortName x;
     searchCategoriesLongName := searchCategoriesLongName x |}.

Definition set_searchCategoriesShortName (v : option (list string))
  (x : exchange) :=
  {| majors_short_name := majors_short_name x;
     majors_long_name := majors_long_name x;
     searchCategoriesShortName := v;
     searchCategoriesLongName := searchCategoriesLongName x |}.

Definition set_searchCategoriesLongName (v : option (list string))
  (x : exchange) :=
  {| majors_short_name := majors_short_name x;
     majors_long_name := majors_long_name x;
     searchCategoriesShortName := searchCategoriesShortName x;
     searchCategoriesLongName := v |}.

Definition state : Type := world exchange Empty_set.

(** [request.p.push(arg)]: the array is read first (a [TypeError] when the
    property is [undefined]), then the argument is evaluated and appended. *)
Definition push (get : exchange -> option (list string))
  (set : option (list string) -> exchange -> exchange)
  (arg : M state string) : M state unit :=
  array <- gets (fun w => get (req w)) ;;
  match array with
  | None =>
      throw (TypeError "Cannot read properties of undefined (reading 'push')")
  | Some items =>
      v <- arg ;;
      update (set (Some (items ++ [v])%list))
  end.

Definition getSearchCategories (db : string -> db_outcome major)
  (callback : M state unit) : M state unit :=
  let query := "SELECT * FROM major" in
  outcome <- database_query db query ;;
  update (set_majors_short_name (Some [])) ;;;
  update (set_majors_long_name (Some [])) ;;;
  match outcome with
  | DbErr _ =>
      console_log ("Encountered an error when performing query: " ++ query)
  | DbOk result =>
      for_range (length result)
        (fun i _ =>
           push majors_short_name set_majors_short_name
             (read_at result i "major_short_name" major_short_name) ;;;
           push majors_long_name set_majors_long_name
             (read_at result i "major_long_name" major_long_name))
        tt ;;;
      (* the two locals alias the two arrays, which nothing writes to after *)
      short <- gets (fun w => majors_short_name (req w)) ;;
      update (set_searchCategoriesShortName short) ;;;
      long <- gets (fun w => majors_long_name (req w)) ;;
      update (set_searchCategoriesLongName long)
  end ;;;
  callback.

End Categories.

(** ** The search model: search handler *)

Module Search.

(** A row of the search query's result.  The handler reads [thumbnail] only,
    a BLOB column that is [null] or a [Buffer]; the other columns go to the
    template as they are. *)
Record row : Type := mkRow {
  first_name : string;
  last_name : string;
  user_id : Z;
  thumbnail : option buffer;
  admin_approved : Z;
  tutoring_course_id : Z;
  courseNumber : Z;
  courseTitle : string;
  major_long_name : string;
  major_short_name : string
}.

(** [request.query]: [search] and [category] are strings or [undefined];
    [page] is [undefined] ([None]) or the decimal numeral of an integer
    ([Some z]): a non-empty string, hence truthy, that [page - 1] coerces to
    the number [z].  Numbers are exact integers, as JavaScript's are below
    2^53. *)
Record query_params : Type := mkQuery {
  search_param : param;
  category_param : param;
  page_param : option Z
}.

(** The properties of [request] the search handler reads and writes. *)
Record request : Type := mkRequest {
  query : query_params;
  searchResult : slot (list row);
  searchTerm : param;
  category : param;
  images : option (list buffer);
  pageNum : option Z;
  upperBound : slot Z;
  lowerBound : slot Z;
  thumbnails : option (list buffer);
  totalNum : option Z
}.

(** A request as the router hands it over: nothing attached yet. *)
Definition incoming (q : query_params) : request :=
  {| query := q;
     searchResult := Undefined;
     searchTerm := None;
     category := None;
     images := None;
     pageNum := None;
     upperBound := Undefined;
     lowerBound := Undefined;
     thumbnails := None;
     totalNum := None |}.

Definition set_searchResult (v : slot (list row)) (r : request) : request :=
  {| query := query r;
     searchResult := v;
     searchTerm := searchTerm r;
     category := category r;
     images := images r;
     pageNum := pageNum r;
     upperBound := upperBound r;
     lowerBound := lowerBound r;
     thumbnails := thumbnails r;
     totalNum := totalNum r |}.

Definition set_searchTerm (v : param) (r : request) : request :=
  {| query := query r;
     searchResult := searchResult r;
     searchTerm := v;
     category := category r;
     images := images r;
     pageNum := pageNum r;
     upperBound := upperBound r;
     lowerBound := lowerBound r;
     thumbnails := thumbnails r;
     totalNum := totalNum r |}.

Definition set_category (v : param) (r : request) : request :=
  {| query := query r;
     searchResult := searchResult r;
     searchTerm := searchTerm r;
     category := v;
     images := images r;
     pageNum := pageNum r;
     upperBound := upperBound r;
     lowerBound := lowerBound r;
     thumbnails := thumbnails r;
     totalNum := totalNum r |}.

Definition set_images (v : option (list buffer)) (r : request) : request :=
  {| query := query r;
     searchResult := searchResult r;
     searchTerm := searchTerm r;
     category := category r;
     images := v;
     pageNum := pageNum r;
     upperBound := upperBound r;
     lowerBound := lowerBound r;
     thumbnails := thumbnails r;
     totalNum := totalNum r |}.

Definition set_pageNum (v : option Z) (r : request) : request :=
  {| query := query r;
     searchResult := searchResult r;
     searchTerm := searchTerm r;
     category := category r;
     images := images r;
     pageNum := v;
     upperBound := upperBound r;
     lowerBound := lowerBound r;
     thumbnails := thumbnails r;
     totalNum := totalNum r |}.

Definition set_upperBound (v : slot Z) (r : request) : request :=
  {| query := query r;
     searchResult := searchResult r;
     searchTerm := searchTerm r;
     category := category r;
     images := images r;
     pageNum := pageNum r;
     upperBound := v;
     lowerBound := lowerBound r;
     thumbnails := thumbnails r;
     totalNum := totalNum r |}.

Definition set_lowerBound (v : slot Z) (r : request) : request :=
  {| query := query r;
     searchResult := searchResult r;
     searchTerm := searchTerm r;
     category := category r;
     images := images r;
     pageNum := pageNum r;
     upperBound := upperBound r;
     lowerBound := v;
     thumbnails := thumbnails r;
     totalNum := totalNum r |}.

Definition set_thumbnails (v : option (list buffer)) (r : request) : request :=
  {| query := query r;
     searchResult := searchResult r;
     searchTerm := searchTerm r;
     category := category r;
     images := images r;
     pageNum := pageNum r;
     upperBound := upperBound r;
     lowerBound := lowerBound r;
     thumbnails := v;
     totalNum := totalNum r |}.

Definition set_totalNum (v : option Z) (r : request) : request :=
  {| query := query r;
     searchResult := searchResult r;
     searchTerm := searchTerm r;
     category := category r;
     images := images r;
     pageNum := pageNum r;
     upperBound := upperBound r;
     lowerBound := lowerBound r;
     thumbnails := thumbnails r;
     totalNum := v |}.

Definition nl : string := String (ascii_of_nat 10) EmptyString.

(** The four query texts of [search], each written out as the source does. *)
Definition query_default : string :=
    "SELECT users.first_name," ++ nl ++
    "       users.last_name," ++ nl ++
    "       tutor_post.user_id," ++ nl ++
    "       tutor_post.post_thumbnail AS thumbnail," ++ nl ++
    "       tutor_post.admin_approved," ++ nl ++
    "       tutor_post.tutoring_course_id," ++ nl ++
    "       course.number AS courseNumber," ++ nl ++
    "       course.title AS courseTitle," ++ nl ++
    "       major.major_long_name," ++ nl ++
    "       major.major_short_name" ++ nl ++
    "FROM tutor_post" ++ nl ++
    "JOIN users ON tutor_post.user_id = users.user_id" ++ nl ++
    "JOIN course ON tutor_post.tutoring_course_id = course.course_id" ++ nl ++
    "JOIN major ON course.major = major.major_id" ++ nl ++
    "WHERE tutor_post.admin_approved = 1".

Definition query_term_and_category (searchTerm : param) : string :=
    "SELECT users.first_name," ++ nl ++
    "       users.last_name," ++ nl ++
    "       tutor_post.user_id," ++ nl ++
    "       tutor_post.post_thumbnail AS thumbnail," ++ nl ++
    "       tutor_post.admin_approved," ++ nl ++
    "       tutor_post.tutoring_course_id," ++ nl ++
    "       course.number AS courseNumber," ++ nl ++
    "       course.title AS courseTitle," ++ nl ++
    "       major.major_long_name," ++ nl ++
    "       major.major_short_name" ++ nl ++
    "FROM tutor_post" ++ nl ++
    "JOIN users ON tutor_post.user_id = users.user_id" ++ nl ++
    "JOIN course ON tutor_post.tutoring_course_id = course.course_id" ++ nl ++
    "JOIN major ON course.major = major.major_id" ++ nl ++
    "WHERE tutor_post.admin_approved = 1 AND" ++
    "(users.first_name LIKE '%" ++ template searchTerm ++
    "%' OR users.last_name LIKE '%" ++ template searchTerm ++ "%')".

Definition query_term_only (searchTerm : param) : string :=
    "SELECT users.first_name," ++ nl ++
    "       users.last_name," ++ nl ++
    "       tutor_post.user_id," ++ nl ++
    "       tutor_post.post_thumbnail AS thumbnail," ++ nl ++
    "       tutor_post.admin_approved," ++ nl ++
    "       tutor_post.tutoring_course_id," ++ nl ++
    "       course.number AS courseNumber," ++ nl ++
    "       course.title AS courseTitle," ++ nl ++
    "       major.major_long_name," ++ nl ++
    "       major.major_short_name" ++ nl ++
    "FROM tutor_post" ++ nl ++
    "JOIN users ON tutor_post.user_id = users.user_id" ++ nl ++
    "JOIN course ON tutor_post.tutoring_course_id = course.course_id" ++ nl ++
    "JOIN major ON course.major = major.major_id" ++ nl ++
    "WHERE tutor_post.admin_approved = 1 AND" ++
    "(users.first_name LIKE '%" ++ template searchTerm ++
    "%' OR users.last_name LIKE '%" ++ template searchTerm ++ "%')".

Definition query_category_only (category : param) : string :=
    "SELECT users.first_name," ++ nl ++
    "       users.last_name," ++ nl ++
    "       tutor_post.user_id," ++ nl ++
    "       tutor_post.post_thumbnail AS thumbnail," ++ nl ++
    "       tutor_post.admin_approved," ++ nl ++
    "       tutor_post.tutoring_course_id," ++ nl ++
    "       course.number AS courseNumber," ++ nl ++
    "       course.title AS courseTitle," ++ nl ++
    "       major.major_long_name," ++ nl ++
    "       major.major_short_name" ++ nl ++
    "FROM tutor_post" ++ nl ++
    "JOIN users ON tutor_post.user_id = users.user_id" ++ nl ++
    "JOIN course ON tutor_post.tutoring_course_id = course.course_id" ++ nl ++
    "JOIN major ON course.major = major.major_id" ++ nl ++
    "WHERE tutor_post.admin_approved = 1 AND" ++
    "major.major_short_name = '" ++ template category ++ "'".

(** The [if] / [else if] chain of [search] that picks the query text. *)
Definition search_query (searchTerm category : param) : string :=
  if negb (is_blank searchTerm) && negb (is_blank category) then
    query_term_and_category searchTerm
  else if negb (is_blank searchTerm) && is_blank category then
    query_term_only searchTerm
  else if is_blank searchTerm && negb (is_blank category) then
    query_category_only category
  else
    query_default.

(** [pageNum]: 0 unless the request has a page, then the page minus one. *)
Definition page_index (page : option Z) : Z :=
  match page with
  | Some page => page - 1
  | None => 0
  end.

(** The loop of [search] that collects the thumbnails that are not [null],
    each as the buffer of its base64 text. *)
Definition collect_thumbnails {S} (result : list row) : M S (list buffer) :=
  for_range (length result)
    (fun i thumbnails =>
       thumbnail <- read_at result i "thumbnail" thumbnail ;;
       match thumbnail with
       | Some blob => ret (thumbnails ++ [buffer_from (to_base64 blob)])%list
       | None => ret thumbnails
       end)
    [].

Definition search (db : string -> db_outcome row)
  (callback : M (world request Empty_set) unit)
  : M (world request Empty_set) unit :=
  rq <- gets req ;;
  let searchTerm := search_param (query rq) in
  let category := category_param (query rq) in
  let pageNum := page_index (page_param (query rq)) in
  let query_text := search_query searchTerm category in
  outcome <- database_query db query_text ;;
  update (set_searchResult (Text "")) ;;;
  update (set_searchTerm (Some "")) ;;;
  update (set_category (Some "")) ;;;
  update (set_images (Some [])) ;;;
  update (set_pageNum (Some pageNum)) ;;;
  update (set_upperBound (Text "")) ;;;
  update (set_lowerBound (Text "")) ;;;
  match outcome with
  | DbErr _ =>
      console_log ("Encountered an error when performing query: " ++ query_text)
  | DbOk result =>
      thumbnails <- collect_thumbnails result ;;
      update (set_searchTerm searchTerm) ;;;
      update (set_category category) ;;;
      update (set_searchResult
                (Val (slice result (pageNum * 5) ((pageNum * 5) + 5)))) ;;;
      update (set_thumbnails
                (Some (slice thumbnails (pageNum * 5) ((pageNum * 5) + 5)))) ;;;
      update (set_totalNum (Some (Z.of_nat (length result)))) ;;;
      update (set_upperBound (Val ((pageNum * 5) + 5))) ;;;
      (if ((pageNum * 5) + 5 >? Z.of_nat (length result))%Z
       then update (set_upperBound (Val (Z.of_nat (length result))))
       else ret tt) ;;;
      update (set_lowerBound (Val ((pageNum * 5) + 1)))
  end ;;;
  callback.

(** *** Reference definitions for the properties of [search] *)

(** The columns and joins, up to and excluding the [WHERE] line. *)
Definition select_from : string :=
  "SELECT users.first_name," ++ nl ++
  "       users.last_name," ++ nl ++
  "       tutor_post.user_id," ++ nl ++
  "       tutor_post.post_thumbnail AS thumbnail," ++ nl ++
  "       tutor_post.admin_approved," ++ nl ++
  "       tutor_post.tutoring_course_id," ++ nl ++
  "       course.number AS courseNumber," ++ nl ++
  "       course.title AS courseTitle," ++ nl ++
  "       major.major_long_name," ++ nl ++
  "       major.major_short_name" ++ nl ++
  "FROM tutor_post" ++ nl ++
  "JOIN users ON tutor_post.user_id = users.user_id" ++ nl ++
  "JOIN course ON tutor_post.tutoring_course_id = course.course_id" ++ nl ++
  "JOIN major ON course.major = major.major_id" ++ nl.

(** The page window in the words of the specification: the elements at
    offsets [5p, 5p+5) of the list, as far as the list goes. *)
Definition page_window {A} (p : Z) (items : list A) : list A :=
  firstn 5 (skipn (Z.to_nat (5 * p)) items).

(** The thumbnails of the rows that have one, each as the buffer of its
    base64 text, in row order. *)
Fixpoint encoded_thumbnails (result : list row) : list buffer :=
  match result with
  | [] => []
  | r :: rest =>
      match thumbnail r with
      | Some blob => buffer_from (to_base64 blob) :: encoded_thumbnails rest
      | None => encoded_thumbnails rest
      end
  end.

(** The same world, with the category of the request replaced. *)
Definition with_category (c : param) (w : world request Empty_set)
  : world request Empty_set :=
  let rq := req w in
  mkWorld
    {| query := {| search_param := search_param (query rq);
                   category_param := c;
                   page_param := page_param (query rq) |};
       searchResult := searchResult rq;
       searchTerm := searchTerm rq;
       category := category rq;
       images := images rq;
       pageNum := pageNum rq;
       upperBound := upperBound rq;
       lowerBound := lowerBound rq;
       thumbnails := thumbnails rq;
       totalNum := totalNum rq |}
    (console w) (queries w) (continued w).

(** *** Sample data *)

Definition sample_row (id : Z) (image : option buffer) : row :=
  {| first_name := "Ada";
     last_name := "Byron";
     user_id := id;
     thumbnail := image;
     admin_approved := 1;
     tutoring_course_id := 7;
     courseNumber := 648;
     courseTitle := "Software Engineering";
     major_long_name := "Computer Science";
     major_short_name := "CSC" |}.

Definition sample_rows : list row :=
  [ sample_row 1 (Some [x4d; x61; x6e]); sample_row 2 None;
    sample_row 3 None; sample_row 4 (Some [x4d]);
    sample_row 5 None; sample_row 6 None;
    sample_row 7 (Some [x4d; x61]); sample_row 8 None;
    sample_row 9 None; sample_row 10 None;
    sample_row 11 None; sample_row 12 None ].

Definition sample_db : string -> db_outcome row := fun _ => DbOk sample_rows.

Definition sample_world (term cat : param) (page : option Z)
  : world request Empty_set :=
  start (incoming {| search_param := term;
                     category_param := cat;
                     page_param := page |}).

End Search.

(** ** The dashboard controller *)

Module Dashboard.

(** A row of the dashboard query's result.  [date_sent] is the time value of
    the date, [is_unread] the numeric flag of the column. *)
Record row : Type := mkRow {
  message_id : Z;
  date_sent : Z;
  message_text : string;
  to_user : Z;
  from_user : Z;
  is_unread : Z;
  from_user_first_name : string;
  from_user_last_name : string
}.

(** An entry of the [messages] array handed to the template. *)
Record message : Type := mkMessage {
  tutorName : string;
  messageText : string;
  dateTime : Z;
  status : string
}.

(** [req.session.userID] and the calls of [res.render]: template name and
    the [messages] local, oldest call first. *)
Record exchange : Type := mkExchange {
  session_userID : option Z;
  rendered : list (string * list message)
}.

Definition render (view : string) (messages : list message) (x : exchange) :=
  {| session_userID := session_userID x;
     rendered := (rendered x ++ [(view, messages)])%list |}.

Definition state : Type := world exchange (list message).

Definition nl : string := String (ascii_of_nat 10) EmptyString.

(** Truthiness of a number. *)
Definition truthy (n : Z) : bool := negb (n =? 0)%Z.

(** The query text of [loadDashboard], for the user it is built for. *)
Definition inbox_query (userID : Z) : string :=
  "SELECT messages.message_id," ++ nl ++
  "       messages.date_sent," ++ nl ++
  "       messages.message_text," ++ nl ++
  "       messages.to_user," ++ nl ++
  "       messages.from_user," ++ nl ++
  "       messages.is_unread," ++ nl ++
  "       users.first_name AS from_user_first_name," ++ nl ++
  "       users.last_name AS from_user_last_name" ++ nl ++
  "FROM messages" ++ nl ++
  "JOIN users ON users.user_id = messages.from_user" ++ nl ++
  "WHERE messages.to_user = " ++ number_to_string userID ++ nl ++
  "ORDER BY messages.date_sent DESC".

(** [database.query] is taken to be the query function of the connection, as
    in the other handlers; the callback's body is the rest of the
    computation, and an exception it throws is caught by nobody. *)
Definition loadDashboard (db : string -> db_outcome row) : M state unit :=
  userID <- gets (fun w => session_userID (req w)) ;;
  let userID := 2 in
  let query := inbox_query userID in
  outcome <- database_query db query ;;
  messages <-
    match outcome with
    | DbErr _ =>
        console_log ("Encountered an error when performing query: " ++ query) ;;;
        ret []
    | DbOk result =>
        for_range (length result)
          (fun i messages =>
             unread <- read_at result 1 "is_unread" is_unread ;;
             let status := if truthy unread then "Unread" else "Read" in
             first <- read_at result i "from_user_first_name"
                        from_user_first_name ;;
             last <- read_at result i "from_user_last_name"
                       from_user_last_name ;;
             text <- read_at result i "message_text" message_text ;;
             sent <- read_at result i "date_sent" date_sent ;;
             let messages :=
               (messages ++ [ {| tutorName := first ++ " " ++ last;
                                 messageText := text;
                                 dateTime := sent;
                                 status := status |} ])%list in
             console_inspect messages ;;;
             ret messages)
          []
    end ;;
  update (render "studentDashboard" messages).

(** *** Reference definitions for the properties of [loadDashboard] *)

(** The entry built from a row, with the status label given. *)
Definition entry (status : string) (r : row) : message :=
  {| tutorName := from_user_first_name r ++ " " ++ from_user_last_name r;
     messageText := message_text r;
     dateTime := date_sent r;
     status := status |}.

(** The label computed from an unread flag. *)
Definition label (unread : Z) : string :=
  if truthy unread then "Unread" else "Read".

(** What the loop prints: the array after each push. *)
Fixpoint snapshots (status : string) (messages : list message)
  (rows : list row) : list (printed (list message)) :=
  match rows with
  | [] => []
  | r :: rest =>
      Inspect (messages ++ [entry status r])%list
      :: snapshots status (messages ++ [entry status r])%list rest
  end.

(** The columns and the join of the dashboard query, up to the [WHERE] line. *)
Definition select_from : string :=
  "SELECT messages.message_id," ++ nl ++
  "       messages.date_sent," ++ nl ++
  "       messages.message_text," ++ nl ++
  "       messages.to_user," ++ nl ++
  "       messages.from_user," ++ nl ++
  "       messages.is_unread," ++ nl ++
  "       users.first_name AS from_user_first_name," ++ nl ++
  "       users.last_name AS from_user_last_name" ++ nl ++
  "FROM messages" ++ nl ++
  "JOIN users ON users.user_id = messages.from_user" ++ nl.

(** *** Sample data *)

Definition sample_row (id : Z) (unread : Z) : row :=
  {| message_id := id;
     date_sent := 1639180800000 - id;
     message_text := "When are you free?";
     to_user := 2;
     from_user := 5;
     is_unread := unread;
     from_user_first_name := "Grace";
     from_user_last_name := "Hopper" |}.

Definition sample_world (userID : option Z) : state :=
  start {| session_userID := userID; rendered := [] |}.

(** Row 0 unread, row 1 read, row 2 unread. *)
Definition sample_inbox : string -> db_outcome row :=
  fun _ => DbOk [sample_row 1 1; sample_row 2 0; sample_row 3 1].

(** A single unread message. *)
Definition single_inbox : string -> db_outcome row :=
  fun _ => DbOk [sample_row 1 1].

End Dashboard.

(** ** The tutor-post controller *)

Module TutorPost.

Record major_id_row : Type := mkMajorId { major_id : Z }.

Record course_id_row : Type := mkCourseId { course_id : Z }.

(** [request.body]: the fields of the multipart form. *)
Record form : Type := mkForm {
  majorShortName : param;
  courseNumber : param;
  postInfo : param
}.

(** The properties of [request] and [response] the handler touches, and the
    files written.  [file] is [request.file]: [undefined] when the form
    carries no image, else the uploaded buffer.  [redirected] lists the
    targets of [res.redirect], oldest first. *)
Record exchange : Type := mkExchange {
  body : form;
  session_userID : option Z;
  file : option buffer;
  postCreated : option bool;
  files : list (string * buffer);
  redirected : list string
}.

Definition set_postCreated (v : option bool) (x : exchange) : exchange :=
  {| body := body x;
     session_userID := session_userID x;
     file := file x;
     postCreated := v;
     files := files x;
     redirected := redirected x |}.

Definition write_file (path : string) (data : buffer) (x : exchange) : exchange :=
  {| body := body x;
     session_userID := session_userID x;
     file := file x;
     postCreated := postCreated x;
     files := (files x ++ [(path, data)])%list;
     redirected := redirected x |}.

Definition redirect (target : string) (x : exchange) : exchange :=
  {| body := body x;
     session_userID := session_userID x;
     file := file x;
     postCreated := postCreated x;
     files := files x;
     redirected := (redirected x ++ [target])%list |}.

Definition state : Type := world exchange (list major_id_row).

(** How the promise of the image pipeline settles. *)
Inductive promise : Type :=
| Fulfilled (png : buffer)
| Rejected (msg : string).

(** What the closures of the promise chain and of the query callbacks
    capture from the synchronous part of [createTutorPost]. *)
Record closure : Type := mkClosure {
  resizing : promise;
  majorIdQuery : string;
  majorIdQueryFormatted : string;
  courseIdQuery : string;
  courseIdQueryFormatted : string
}.

(** An error that no handler caught: a rejected promise nobody handles (a
    throw inside an [async] callback), or an exception that leaves a plain
    callback run by the database client. *)
Inductive escape : Type :=
| UnhandledRejection (e : error)
| UncaughtException (e : error).

(** One request through [createTutorPost]: what the call itself returned
    to the route, the error that escaped a later callback, if any, and the
    world at the end. *)
Record run : Type := mkRun {
  returned : completion unit;
  escaped : option escape;
  final : state
}.

Section Handler.

(** [mysql.format(sql, values)] of the database client. *)
Variable mysql_format : string -> list param -> string.

(** [sharp(input).resize(width, null).toFile(path)]: the library refuses
    the input at once, or returns a promise. *)
Variable sharp_resize_toFile : buffer -> Z -> string -> completion promise.

(** The database, on the two lookups. *)
Variable major_db : string -> db_outcome major_id_row.
Variable course_db : string -> db_outcome course_id_row.

(** The synchronous part: the promise chain is set up, its handlers run in
    later turns, and [callback] is called before the function returns. *)
Definition createTutorPost (callback : M state unit) : M state closure :=
  rq <- gets req ;;
  let majorShortName := majorShortName (body rq) in
  let courseNumber := courseNumber (body rq) in
  let postInfo := postInfo (body rq) in
  let majorIdQuery := "SELECT major_id FROM major WHERE major_short_name = ?" in
  let majorIdQueryFormatted := mysql_format majorIdQuery [majorShortName] in
  let courseIdQuery := "SELECT course_id FROM course WHERE number = ?" in
  let courseIdQueryFormatted := mysql_format courseIdQuery [courseNumber] in
  let userId := session_userID rq in
  image <-
    match file rq with
    | Some uploaded => ret uploaded
    | None =>
        throw (TypeError
          "Cannot read properties of undefined (reading 'buffer')")
    end ;;
  resizing <- completed (sharp_resize_toFile image 600 "tmp.png") ;;
  callback ;;;
  ret {| resizing := resizing;
         majorIdQuery := majorIdQuery;
         majorIdQueryFormatted := majorIdQueryFormatted;
         courseIdQuery := courseIdQuery;
         courseIdQueryFormatted := courseIdQueryFormatted |}.

(** [.then(data => ...)] and [.catch(err => ...)] once the promise has
    settled.  The result is what the database hands to the callback of
    the query sent, if one was. *)
Definition settled (c : closure)
  : M state (option (db_outcome major_id_row)) :=
  catch
    (match resizing c with
     | Rejected msg => throw (ImageError msg)
     | Fulfilled png =>
         update (write_file "tmp.png" png) ;;;
         update (set_postCreated (Some false)) ;;;
         outcome <- database_query major_db (majorIdQueryFormatted c) ;;
         ret (Some outcome)
     end)
    (fun err =>
       console_log ("downisze issue " ++ error_to_string err) ;;;
       ret None).

(** The [async (err, result) => ...] callback of the major lookup. *)
Definition major_id_callback (c : closure)
  (outcome : db_outcome major_id_row)
  : M state (option (db_outcome course_id_row)) :=
  match outcome with
  | DbErr err =>
      console_log ("Encountered an error when performing query: "
                   ++ majorIdQuery c) ;;;
      throw (DbError err)
  | DbOk result =>
      if (Z.of_nat (length result) >=? 0)%Z then
        console_inspect result ;;;
        console_log "Getting major id." ;;;
        major_id <- read_at result 0 "major_id" major_id ;;
        console_log (courseIdQueryFormatted c) ;;;
        outcome' <- database_query course_db (courseIdQueryFormatted c) ;;
        ret (Some outcome')
      else
        ret None
  end.

(** The [(err, result) => ...] callback of the course lookup.  The insert
    statement is bound and never sent. *)
Definition course_id_callback (c : closure)
  (outcome : db_outcome course_id_row) : M state unit :=
  match outcome with
  | DbErr err =>
      console_log ("Encountered an error when performing query: "
                   ++ courseIdQuery c) ;;;
      throw (DbError err)
  | DbOk result =>
      if (Z.of_nat (length result) >? 0)%Z then
        console_log "Inserting to database." ;;;
        let sqlInsert :=
          "INSERT INTO tutor_post (tutor_id, post_created, post_details, post_image) VALUES (?,?,?,?)" in
        ret tt
      else
        ret tt
  end.

(** The turns of one request, in the order the event loop runs them. *)
Definition handle (callback : M state unit) (w : state) : run :=
  match createTutorPost callback w with
  | (Throw e, w0) => mkRun (Throw e) None w0
  | (Normal c, w0) =>
      match settled c w0 with
      | (Throw e, w1) => mkRun (Normal tt) (Some (UnhandledRejection e)) w1
      | (Normal None, w1) => mkRun (Normal tt) None w1
      | (Normal (Some outcome), w1) =>
          match major_id_callback c outcome w1 with
          | (Throw e, w2) =>
              mkRun (Normal tt) (Some (UnhandledRejection e)) w2
          | (Normal None, w2) => mkRun (Normal tt) None w2
          | (Normal (Some outcome'), w2) =>
              match course_id_callback c outcome' w2 with
              | (Throw e, w3) =>
                  mkRun (Normal tt) (Some (UncaughtException e)) w3
              | (Normal tt, w3) => mkRun (Normal tt) None w3
              end
          end
      end
  end.

(** The [POST] route: [createTutorPost] with the callback that redirects
    to the site root. *)
Definition post_route (w : state) : run :=
  handle (update (redirect "/")) w.

End Handler.

(** *** Reference definitions and sample data *)

(** The two lookups as the handler formats them. *)
Definition major_lookup (mysql_format : string -> list param -> string)
  (x : exchange) : string :=
  mysql_format "SELECT major_id FROM major WHERE major_short_name = ?"
    [majorShortName (body x)].

Definition course_lookup (mysql_format : string -> list param -> string)
  (x : exchange) : string :=
  mysql_format "SELECT course_id FROM course WHERE number = ?"
    [courseNumber (body x)].

(** A formatter in the manner of the client's: the first [?] of the
    statement is replaced by the first value, quoted. *)
Fixpoint substitute (sql : string) (values : list param) : string :=
  match sql with
  | EmptyString => EmptyString
  | String c rest =>
      if Ascii.eqb c "?"%char then
        match values with
        | [] => sql
        | v :: _ => "'" ++ template v ++ "'" ++ rest
        end
      else String c (substitute rest values)
  end.

Definition sample_form : form :=
  {| majorShortName := Some "CSC";
     courseNumber := Some "648";
     postInfo := Some "Evenings and weekends." |}.

Definition sample_exchange (upload : option buffer) : exchange :=
  {| body := sample_form;
     session_userID := Some 9;
     file := upload;
     postCreated := None;
     files := [];
     redirected := [] |}.

Definition sample_image : buffer := [x89; x50; x4e; x47].

(** Something that is not an image. *)
Definition sample_text : buffer := [x68; x65; x6c; x6c; x6f].

(** An image library that resizes what starts as a PNG file does and
    rejects the rest. *)
Definition sample_sharp (input : buffer) (width : Z) (path : string)
  : completion promise :=
  match input with
  | x89 :: x50 :: x4e :: x47 :: _ => Normal (Fulfilled input)
  | _ => Normal (Rejected "Input buffer contains unsupported image format")
  end.

(** A database that has lost its connection. *)
Definition down {row} : string -> db_outcome row :=
  fun _ => DbErr "connect ECONNREFUSED".

Definition one_major : string -> db_outcome major_id_row :=
  fun _ => DbOk [ {| major_id := 3 |} ].

Definition one_course : string -> db_outcome course_id_row :=
  fun _ => DbOk [ {| course_id := 41 |} ].

End TutorPost.

(** ** The search route: the handler that renders the page *)

Module SearchRoute.

(** The locals handed to the [search] template. *)
Record view : Type := mkView {
  results : Z;
  pageNum : option Z;
  searchTerm : param;
  searchResult : list Search.row;
  category : param;
  images : option (list buffer);
  totalNum : option Z;
  upperBound : slot Z;
  lowerBound : slot Z
}.


(** *** Reference definitions *)

(** The buffer [search] makes of the thumbnail of a row that has one. *)
Definition encoded (r : Search.row) : buffer :=
  match Search.thumbnail r with
  | Some blob => buffer_from (to_base64 blob)
  | None => []
  end.

(** The tail of the query text after the approval condition. *)
Definition filter_text (searchTerm category : param) : string :=
  if negb (is_blank searchTerm) then
    " AND(users.first_name LIKE '%" ++ template searchTerm
    ++ "%' OR users.last_name LIKE '%" ++ template searchTerm ++ "%')"
  else if negb (is_blank category) then
    " ANDmajor.major_short_name = '" ++ template category ++ "'"
  else "".

End SearchRoute.

(** ** The tutor-post controller: the course data of the form *)

Module CourseData.

Definition nl : string := String (ascii_of_nat 10) EmptyString.

(** A row of the course query's result. *)
Module Row.
Record t : Type := mk {
  courseNumber : Z;
  major : Z;
  courseTitle : string;
  majorShortName : string
}.
End Row.

(** An option of the form: what is pushed for a row. *)
Record course : Type := mkCourse {
  courseNumber : Z;
  courseLabel : string
}.

(** The [courseData] object: its own properties, in the order they were
    created, each holding an array of options. *)
Definition object : Type := list (string * list course).

(** The names every object inherits from [Object.prototype]. *)
Definition object_prototype : list string :=
  [ "constructor"; "__defineGetter__"; "__defineSetter__"; "hasOwnProperty";
    "__lookupGetter__"; "__lookupSetter__"; "isPrototypeOf";
    "propertyIsEnumerable"; "toString"; "valueOf"; "__proto__";
    "toLocaleString" ].

Definition inherited (key : string) : bool :=
  existsb (String.eqb key) object_prototype.

(** The own property [key] of the object, if it has one. *)
Fixpoint own (key : string) (o : object) : option (list course) :=
  match o with
  | [] => None
  | (k, v) :: rest => if String.eqb key k then Some v else own key rest
  end.

(** [key in o]: own or inherited. *)
Definition has (key : string) (o : object) : bool :=
  match own key o with
  | Some _ => true
  | None => inherited key
  end.

(** [o[key] = v] for a key that is own or new. *)
Fixpoint assign (key : string) (v : list course) (o : object) : object :=
  match o with
  | [] => [(key, v)]
  | (k, v0) :: rest =>
      if String.eqb key k then (k, v) :: rest
      else (k, v0) :: assign key v rest
  end.

(** [request.courseData] and the calls of [res.render]: template name and
    the [courseData] local. *)
Record exchange : Type := mkExchange {
  courseData : option object;
  rendered : list (string * option object)
}.

Definition set_courseData (v : option object) (x : exchange) : exchange :=
  {| courseData := v; rendered := rendered x |}.

Definition render (view_name : string) (v : option object) (x : exchange)
  : exchange :=
  {| courseData := courseData x;
     rendered := (rendered x ++ [(view_name, v)])%list |}.

Definition state : Type := world exchange Empty_set.

(** How the promise of the [async] query callback settles: fulfilled,
    rejected with an error of the fragment, or rejected with the
    [ReferenceError] of an identifier that is not in scope. *)
Inductive settlement : Type :=
| Done
| Raised (e : error)
| RaisedReference (msg : string).

(** [for (let item of items) acc = body(item, acc)] *)
Fixpoint for_of {S A B} (items : list A) (body : A -> B -> M S B) (acc : B)
  : M S B :=
  match items with
  | [] => ret acc
  | item :: rest => bind (body item acc) (for_of rest body)
  end.

(** The query text of [getTutorPostData]. *)
Definition q : string :=
  " SELECT course.number AS courseNumber, " ++ nl ++
  "                       course.major, " ++ nl ++
  "                       course.title AS courseTitle," ++ nl ++
  "                       major.major_short_name AS majorShortName" ++ nl ++
  "                FROM course" ++ nl ++
  "                JOIN major ON course.major = major.major_id" ++ nl ++
  "                ORDER BY course.major ASC," ++ nl ++
  "                         course.number ASC".

Section Handler.

(** [String.prototype.toUpperCase] *)
Variable toUpperCase : string -> string.

(** The body of the loop of [getTutorPostData]. *)
Definition add_course (item : Row.t) (courseData : object) : M state object :=
  let key := Row.majorShortName item in
  let courseData :=
    if Bool.eqb (has key courseData) false then assign key [] courseData
    else courseData in
  let pushed :=
    {| courseNumber := Row.courseNumber item;
       courseLabel :=
         toUpperCase (Row.majorShortName item) ++ " "
         ++ number_to_string (Row.courseNumber item) ++ " "
         ++ Row.courseTitle item |} in
  match own key courseData with
  | Some options => ret (assign key (options ++ [pushed])%list courseData)
  | None =>
      if inherited key then
        throw (TypeError "courseData[item.majorShortName].push is not a function")
      else
        throw (TypeError "Cannot read properties of undefined (reading 'push')")
  end.

(** [getTutorPostData]: the request gets an empty object, the query is sent,
    and the result is how the [async] callback settles.  In the error branch
    the message names [majorIdQuery], which is not in scope there: building
    the message throws before anything is printed or [err] is thrown. *)
Definition getTutorPostData (db : string -> db_outcome Row.t)
  (callback : M state unit) (w : state) : settlement * state :=
  match (update (set_courseData (Some [])) ;;; database_query db q) w with
  | (Throw e, w0) => (Raised e, w0)
  | (Normal (DbErr err), w0) =>
      (RaisedReference "majorIdQuery is not defined", w0)
  | (Normal (DbOk result), w0) =>
      match (courseData <- for_of result add_course [] ;;
             update (set_courseData (Some courseData)) ;;;
             callback) w0 with
      | (Normal tt, w1) => (Done, w1)
      | (Throw e, w1) => (Raised e, w1)
      end
  end.

End Handler.

(** The last handler of the [GET] route. *)
Definition tutorPostInfo : M state unit :=
  data <- gets (fun w => courseData (req w)) ;;
  update (render "tutorPostInfo" data).

(** *** Reference definitions and sample data *)

(** The option built from a row. *)
Definition option_of (toUpperCase : string -> string) (item : Row.t) : course :=
  {| courseNumber := Row.courseNumber item;
     courseLabel :=
       toUpperCase (Row.majorShortName item) ++ " "
       ++ number_to_string (Row.courseNumber item) ++ " "
       ++ Row.courseTitle item |}.

(** The rows of a major, in the order of the result. *)
Definition rows_of (key : string) (result : list Row.t) : list Row.t :=
  filter (fun item => String.eqb key (Row.majorShortName item)) result.

(** The number of options an object holds. *)
Definition size (o : object) : nat :=
  fold_right (fun kv n => (length (snd kv) + n)%nat) 0%nat o.

(** Upper case of the letters a to z. *)
Definition upper_ascii (c : ascii) : ascii :=
  let n := nat_of_ascii c in
  if ((97 <=? n) && (n <=? 122))%nat then ascii_of_nat (n - 32) else c.

Fixpoint upper (s : string) : string :=
  match s with
  | EmptyString => EmptyString
  | String c rest => String (upper_ascii c) (upper rest)
  end.

Definition sample_courses : list Row.t :=
  [ Row.mk 210 1 "Introduction to Programming" "csc";
    Row.mk 648 1 "Software Engineering" "csc";
    Row.mk 226 2 "Calculus I" "math" ].

End CourseData.

(** ** The dashboard route *)

Module DashboardRoute.

(** What the route adds to the exchange of [loadDashboard]:
    [req.loginValidated], left by the login middleware, and the targets of
    [res.redirect]. *)
Record exchange : Type := mkExchange {
  loginValidated : slot bool;
  redirected : list string;
  dashboard : Dashboard.exchange
}.

Definition redirect (target : string) (x : exchange) : exchange :=
  {| loginValidated := loginValidated x;
     redirected := (redirected x ++ [target])%list;
     dashboard := dashboard x |}.

Definition state : Type := world exchange (list Dashboard.message).

(** A handler of the dashboard exchange, run on the request of the route. *)
Definition within {A} (m : M Dashboard.state A) : M state A :=
  fun w =>
    match m (mkWorld (dashboard (req w)) (console w) (queries w) (continued w)) with
    | (c, w') =>
        (c,
         mkWorld
           {| loginValidated := loginValidated (req w);
              redirected := redirected (req w);
              dashboard := req w' |}
           (console w') (queries w') (continued w'))
    end.

(** The last handler of the [GET] route. *)
Definition dashboard_page (db : string -> db_outcome Dashboard.row)
  : M state unit :=
  validated <- gets (fun w => loginValidated (req w)) ;;
  match validated with
  | Val false => update (redirect "/login")
  | Val true | Text _ | Undefined => within (Dashboard.loadDashboard db)
  end.

Definition sample_world (validated : slot bool) : state :=
  start {| loginValidated := validated;
           redirected := [];
           dashboard :=
             {| Dashboard.session_userID := Some 9;
                Dashboard.rendered := [] |} |}.

End DashboardRoute.

(** ** Numbers as the language has them *)

Module Double.

(** The values the page arithmetic of [search] can take: a double whose
    value is an integer, or an infinity.  (The operands are integers, so no
    fraction and no [NaN] arises.) *)
Inductive number : Type :=
| Finite (z : Z)
| Infinity
| NegInfinity.

(** The double nearest to an integer: exact below 2^53, then rounded to 53
    significant bits with ties to the even significand, and an infinity from
    2^1024 on. *)
Definition round (x : Z) : number :=
  let a := Z.abs x in
  if (a <? 2 ^ 53)%Z then Finite x
  else
    let ulp := 2 ^ (Z.log2 a - 52) in
    let q := a / ulp in
    let r := a mod ulp in
    let q' :=
      if (2 * r <? ulp)%Z then q
      else if (ulp <? 2 * r)%Z then q + 1
      else if Z.even q then q
      else q + 1 in
    let v := q' * ulp in
    if (2 ^ 1024 <=? v)%Z then (if (x <? 0)%Z then NegInfinity else Infinity)
    else Finite (Z.sgn x * v).

(** [a + k] and [a - k] for an integer constant [k]. *)
Definition add (a : number) (k : Z) : number :=
  match a with
  | Finite z => round (z + k)
  | Infinity => Infinity
  | NegInfinity => NegInfinity
  end.

(** [a * k] for a positive integer constant [k]. *)
Definition mul (a : number) (k : Z) : number :=
  match a with
  | Finite z => round (z * k)
  | Infinity => Infinity
  | NegInfinity => NegInfinity
  end.

(** [a > n] for an integer [n]. *)
Definition gtb (a : number) (n : Z) : bool :=
  match a with
  | Finite z => (n <? z)%Z
  | Infinity => true
  | NegInfinity => false
  end.

End Double.

(** ** The page arithmetic of [search], in the numbers of the language *)

Module SearchBounds.

(** [pageNum]: 0, or [request.query.page - 1], the page being the number its
    numeral converts to. *)
Definition pageNum (page : option Z) : Double.number :=
  match page with
  | Some page => Double.add (Double.round page) (-1)
  | None => Double.Finite 0
  end.

(** [request.upperBound] after a successful query with [length] rows. *)
Definition upperBound (pageNum : Double.number) (length : Z) : Double.number :=
  let upperBound := Double.add (Double.mul pageNum 5) 5 in
  if Double.gtb (Double.add (Double.mul pageNum 5) 5) length
  then Double.Finite length
  else upperBound.

(** [request.lowerBound] after a successful query. *)
Definition lowerBound (pageNum : Double.number) : Double.number :=
  Double.add (Double.mul pageNum 5) 1.

End SearchBounds.

(** * Properties *)

(** ** The fragment on concrete values *)

Example to_base64_three_bytes :
  to_base64 (list_byte_of_string "Man") = "TWFu".
Proof. reflexivity. Qed.

Example to_base64_two_bytes :
  to_base64 (list_byte_of_string "Ma") = "TWE=".
Proof. reflexivity. Qed.

Example to_base64_one_byte :
  to_base64 (list_byte_of_string "M") = "TQ==".
Proof. reflexivity. Qed.

Example to_base64_high_bytes : to_base64 [xff; xfe; x00; x3e] = "//4APg==".
Proof. reflexivity. Qed.

Example slice_inside : slice [10; 11; 12; 13; 14; 15; 16] 0 5 = [10; 11; 12; 13; 14].
Proof. reflexivity. Qed.

Example slice_past_the_end : slice [10; 11; 12; 13; 14; 15; 16] 5 10 = [15; 16].
Proof. reflexivity. Qed.

Example slice_beyond : slice [10; 11; 12; 13; 14; 15; 16] 10 15 = [].
Proof. reflexivity. Qed.

Example slice_negative : slice [10; 11; 12; 13; 14; 15; 16] (-3) (-1) = [14; 15].
Proof. reflexivity. Qed.

Example slice_page_zero : slice [10; 11; 12; 13; 14; 15; 16] (-5) 0 = [].
Proof. reflexivity. Qed.

Example template_undefined : template None = "undefined".
Proof. reflexivity. Qed.

Example number_to_string_2 : number_to_string 2 = "2".
Proof. reflexivity. Qed.


(** ** The monad and the loops *)

Lemma nth_error_middle {A} (pre post : list A) (x : A) :
  nth_error (pre ++ x :: post)%list (length pre) = Some x.
Proof.
  rewrite nth_error_app2 by lia.
  now rewrite Nat.sub_diag.
Qed.

Lemma read_at_middle {S A B} (pre post : list A) (x : A) (name : string)
  (get : A -> B) (s : S) :
  read_at (pre ++ x :: post)%list (length pre) name get s = (Normal (get x), s).
Proof.
  unfold read_at. now rewrite nth_error_middle.
Qed.

Lemma read_at_some {S A B} (a : list A) (i : nat) (x : A) (name : string)
  (get : A -> B) (s : S) :
  nth_error a i = Some x ->
  read_at a i name get s = (Normal (get x), s).
Proof.
  intros Hx. unfold read_at. now rewrite Hx.
Qed.

Lemma length_snoc {A} (pre : list A) (x : A) :
  length (pre ++ [x])%list = Datatypes.S (length pre).
Proof.
  rewrite length_app. simpl. lia.
Qed.

Lemma bind_normal {S A B} (m : M S A) (k : A -> M S B) (s s' : S) (a : A) :
  m s = (Normal a, s') -> bind m k s = k a s'.
Proof.
  intros Hm. unfold bind. now rewrite Hm.
Qed.

(** ** Array slices *)

Lemma slice_page_window {A} (items : list A) (p : Z) :
  0 <= p ->
  slice items (p * 5) (p * 5 + 5) = Search.page_window p items.
Proof.
  intros Hp. unfold slice, Search.page_window.
  destruct (Z.ltb_spec (p * 5) 0) as [?|_]; [lia|].
  destruct (Z.ltb_spec (p * 5 + 5) 0) as [?|_]; [lia|].
  set (n := Z.of_nat (length items)).
  assert (Hn : 0 <= n) by (subst n; lia).
  destruct (Z_le_gt_dec (p * 5) n) as [Hle|Hgt].
  - rewrite (Z.min_l (p * 5) n) by lia.
    replace (Z.to_nat (p * 5)) with (Z.to_nat (5 * p)) by lia.
    destruct (Z_le_gt_dec (p * 5 + 5) n) as [Hle'|Hgt'].
    + rewrite Z.min_l by lia.
      replace (Z.to_nat (Z.max (p * 5 + 5 - p * 5) 0)) with 5%nat by lia.
      reflexivity.
    + rewrite Z.min_r by lia.
      rewrite Z.max_l by lia.
      rewrite !firstn_all2; trivial; rewrite length_skipn; subst n; lia.
  - rewrite (Z.min_r (p * 5) n) by lia.
    rewrite Z.min_r by lia.
    rewrite skipn_all2 by (subst n; lia).
    rewrite (skipn_all2 (n := Z.to_nat (5 * p))) by (subst n; lia).
    now rewrite !firstn_nil.
Qed.

Lemma page_window_nth_error {A} (items : list A) (p : Z) (i : nat) :
  nth_error (Search.page_window p items) i =
  if (i <? 5)%nat then nth_error items (Z.to_nat (5 * p) + i) else None.
Proof.
  unfold Search.page_window.
  destruct (Nat.ltb_spec i 5) as [Hi|Hi].
  - rewrite nth_error_firstn.
    destruct (Nat.ltb_spec i 5) as [_|?]; [|lia].
    now rewrite nth_error_skipn.
  - apply nth_error_None. rewrite length_firstn. lia.
Qed.

(** ** The search handler *)

Lemma collect_thumbnails_from {S} (post pre : list Search.row)
  (acc : list buffer) (s : S) :
  for_from (length post) (length pre)
    (fun i thumbnails =>
       thumbnail <- read_at (pre ++ post)%list i "thumbnail" Search.thumbnail ;;
       match thumbnail with
       | Some blob => ret (thumbnails ++ [buffer_from (to_base64 blob)])%list
       | None => ret thumbnails
       end)
    acc s
  = (Normal (acc ++ Search.encoded_thumbnails post)%list, s).
Proof.
  revert pre acc.
  induction post as [|x post IH]; intros pre acc; simpl.
  - unfold ret. now rewrite app_nil_r.
  - unfold bind at 1. unfold bind at 1.
    rewrite read_at_middle.
    replace (pre ++ x :: post)%list with ((pre ++ [x]) ++ post)%list
      by (now rewrite <- app_assoc).
    rewrite <- (length_snoc pre x).
    destruct (Search.thumbnail x) as [blob|]; unfold ret at 1.
    + rewrite IH. now rewrite <- app_assoc.
    + apply IH.
Qed.

Lemma collect_thumbnails_run {S} (result : list Search.row) (s : S) :
  Search.collect_thumbnails result s
  = (Normal (Search.encoded_thumbnails result), s).
Proof.
  unfold Search.collect_thumbnails, for_range.
  apply (collect_thumbnails_from result [] [] s).
Qed.

(** The world [search] hands to its continuation when the query succeeds. *)
Lemma search_found (db : string -> db_outcome Search.row)
  (callback : M (world Search.request Empty_set) unit)
  (w : world Search.request Empty_set) (result : list Search.row) :
  let q := Search.query (req w) in
  let p := Search.page_index (Search.page_param q) in
  let n := Z.of_nat (length result) in
  let text := Search.search_query (Search.search_param q) (Search.category_param q) in
  db text = DbOk result ->
  Search.search db callback w
  = callback
      (mkWorld
         {| Search.query := q;
            Search.searchResult := Val (slice result (p * 5) (p * 5 + 5));
            Search.searchTerm := Search.search_param q;
            Search.category := Search.category_param q;
            Search.images := Some [];
            Search.pageNum := Some p;
            Search.upperBound := Val (if (p * 5 + 5 >? n)%Z then n else p * 5 + 5);
            Search.lowerBound := Val (p * 5 + 1);
            Search.thumbnails :=
              Some (slice (Search.encoded_thumbnails result) (p * 5) (p * 5 + 5));
            Search.totalNum := Some n |}
         (console w) (queries w ++ [text])%list (continued w)).
Proof.
  intros q p n text Hdb.
  unfold Search.search.
  unfold bind at 1. unfold gets.
  unfold bind at 1. unfold database_query.
  fold q p n text. rewrite Hdb.
  unfold bind, update, modify, ret; cbn [req console queries continued].
  rewrite collect_thumbnails_run.
  fold n.
  destruct (p * 5 + 5 >? n)%Z; reflexivity.
Qed.

(** The world [search] hands to its continuation when the query fails. *)
Lemma search_failed (db : string -> db_outcome Search.row)
  (callback : M (world Search.request Empty_set) unit)
  (w : world Search.request Empty_set) (err : string) :
  let q := Search.query (req w) in
  let p := Search.page_index (Search.page_param q) in
  let text := Search.search_query (Search.search_param q) (Search.category_param q) in
  db text = DbErr err ->
  Search.search db callback w
  = callback
      (mkWorld
         {| Search.query := q;
            Search.searchResult := Text "";
            Search.searchTerm := Some "";
            Search.category := Some "";
            Search.images := Some [];
            Search.pageNum := Some p;
            Search.upperBound := Text "";
            Search.lowerBound := Text "";
            Search.thumbnails := Search.thumbnails (req w);
            Search.totalNum := Search.totalNum (req w) |}
         (console w ++ [Line ("Encountered an error when performing query: " ++ text)])%list
         (queries w ++ [text])%list (continued w)).
Proof.
  intros q p text Hdb.
  unfold Search.search.
  unfold bind at 1. unfold gets.
  unfold bind at 1. unfold database_query.
  fold q p text. rewrite Hdb.
  reflexivity.
Qed.

Lemma search_sends_one_query (db : string -> db_outcome Search.row)
  (w : world Search.request Empty_set) :
  let q := Search.query (req w) in
  queries (snd (Search.search db next w))
  = (queries w
     ++ [Search.search_query (Search.search_param q) (Search.category_param q)])%list.
Proof.
  intros q.
  destruct (db (Search.search_query (Search.search_param q) (Search.category_param q)))
    as [err|result] eqn:Hdb.
  - now rewrite (search_failed db next w err Hdb).
  - now rewrite (search_found db next w result Hdb).
Qed.

Lemma query_default_text :
  Search.query_default
  = Search.select_from ++ "WHERE tutor_post.admin_approved = 1".
Proof. reflexivity. Qed.

Lemma query_term_text (term : param) :
  Search.query_term_only term
  = Search.select_from ++ "WHERE tutor_post.admin_approved = 1 AND"
    ++ "(users.first_name LIKE '%" ++ template term
    ++ "%' OR users.last_name LIKE '%" ++ template term ++ "%')".
Proof. reflexivity. Qed.

(** Without a page the first five rows are attached, and the first five of
    the three thumbnails the rows hold. *)
Example search_first_page :
  let out := Search.search Search.sample_db next
               (Search.sample_world (Some "") (Some "") None) in
  Search.searchResult (req (snd out)) = Val (firstn 5 Search.sample_rows) /\
  Search.thumbnails (req (snd out))
    = Some [list_byte_of_string "TWFu"; list_byte_of_string "TQ==";
            list_byte_of_string "TWE="] /\
  Search.lowerBound (req (snd out)) = Val 1 /\
  Search.upperBound (req (snd out)) = Val 5 /\
  Search.totalNum (req (snd out)) = Some 12.
Proof. repeat split. Qed.

(** Page 0 is a page all the same: the index is -1 and the window empty. *)
Example search_page_zero :
  let out := Search.search Search.sample_db next
               (Search.sample_world (Some "") (Some "") (Some 0)) in
  Search.pageNum (req (snd out)) = Some (-1) /\
  Search.searchResult (req (snd out)) = Val [] /\
  Search.lowerBound (req (snd out)) = Val (-4) /\
  Search.upperBound (req (snd out)) = Val 0.
Proof. repeat split. Qed.

(** A failed query leaves the defaults and runs the continuation. *)
Example search_database_down :
  let out := Search.search (fun _ => DbErr "connect ECONNREFUSED") next
               (Search.sample_world (Some "Ada") (Some "CSC") (Some 2)) in
  fst out = Normal tt /\
  continued (snd out) = 1%nat /\
  Search.searchResult (req (snd out)) = Text "" /\
  Search.searchTerm (req (snd out)) = Some "" /\
  Search.upperBound (req (snd out)) = Text "" /\
  Search.thumbnails (req (snd out)) = None.
Proof. repeat split. Qed.

(** C1.  For every fetched result list and every page index [p >= 0] (0 when
    the request has no page, the page minus one otherwise), the window
    [search] attaches as [request.searchResult] is the elements of the result
    list at offsets [5p, 5p+5), as far as the list goes, and
    [request.thumbnails] is the thumbnail list cut at the same offsets. *)
Theorem search_window_C1 :
  forall (db : string -> db_outcome Search.row)
         (w : world Search.request Empty_set) (result : list Search.row),
    let q := Search.query (req w) in
    let p := Search.page_index (Search.page_param q) in
    db (Search.search_query (Search.search_param q) (Search.category_param q))
      = DbOk result ->
    0 <= p ->
    let out := Search.search db next w in
    fst out = Normal tt /\
    Search.searchResult (req (snd out)) = Val (Search.page_window p result) /\
    Search.thumbnails (req (snd out))
      = Some (Search.page_window p (Search.encoded_thumbnails result)) /\
    (forall i : nat,
       nth_error (Search.page_window p result) i
       = if (i <? 5)%nat then nth_error result (Z.to_nat (5 * p) + i)
         else None) /\
    Search.page_index None = 0 /\
    (forall page : Z, Search.page_index (Some page) = page - 1).
Proof.
  intros db w result q p Hdb Hp out.
  subst out. rewrite (search_found db next w result Hdb).
  fold q p. cbn [next modify fst snd req Search.searchResult Search.thumbnails].
  rewrite !slice_page_window by exact Hp.
  repeat split.
  intros i. apply page_window_nth_error.
Qed.

Lemma search_window_C1_witness :
  let out := Search.search Search.sample_db next
               (Search.sample_world (Some "") (Some "") (Some 2)) in
  Search.searchResult (req (snd out))
    = Val (Search.page_window 1 Search.sample_rows) /\
  Search.page_window 1 Search.sample_rows
    = [ Search.sample_row 6 None; Search.sample_row 7 (Some [x4d; x61]);
        Search.sample_row 8 None; Search.sample_row 9 None;
        Search.sample_row 10 None ].
Proof.
  split.
  - apply (search_window_C1 Search.sample_db
             (Search.sample_world (Some "") (Some "") (Some 2))
             Search.sample_rows).
    + reflexivity.
    + vm_compute. discriminate.
  - reflexivity.
Defined.

Lemma round_exact (x : Z) :
  - 2 ^ 53 < x < 2 ^ 53 -> Double.round x = Double.Finite x.
Proof.
  intros Hx. unfold Double.round.
  destruct (Z.ltb_spec (Z.abs x) (2 ^ 53)) as [_|Hge]; [reflexivity|].
  change (2 ^ 53) with 9007199254740992 in *. lia.
Qed.

Example round_ties_to_even :
  Double.round (2 ^ 53 + 1) = Double.Finite (2 ^ 53) /\
  Double.round (2 ^ 53 + 3) = Double.Finite (2 ^ 53 + 4) /\
  Double.round 10133099161583605 = Double.Finite 10133099161583604 /\
  Double.round (- (2 ^ 53 + 3)) = Double.Finite (- (2 ^ 53 + 4)).
Proof. repeat split. Qed.

Example round_overflows :
  Double.round (2 ^ 1024 - 2 ^ 970 - 1) = Double.Finite (2 ^ 1024 - 2 ^ 971) /\
  Double.round (2 ^ 1024 - 2 ^ 970) = Double.Infinity /\
  Double.round (- 10 ^ 400) = Double.NegInfinity.
Proof. vm_compute. repeat split. Qed.

(** Where every value of the page arithmetic stays below 2^53, the numbers
    of the language are the integers: page index and both bounds. *)
Lemma page_arithmetic_exact (page : option Z) (n : Z) :
  let p := Search.page_index page in
  - 2 ^ 53 < 5 * p -> 5 * p + 5 < 2 ^ 53 ->
  SearchBounds.pageNum page = Double.Finite p /\
  SearchBounds.upperBound (Double.Finite p) n
    = Double.Finite (Z.min (5 * p + 5) n) /\
  SearchBounds.lowerBound (Double.Finite p) = Double.Finite (5 * p + 1).
Proof.
  intros p Hlow Hhigh.
  change (2 ^ 53) with 9007199254740992 in Hlow, Hhigh.
  assert (Hr : forall x, - 9007199254740992 < x < 9007199254740992 ->
                 Double.round x = Double.Finite x)
    by (intros x Hx; apply round_exact;
        change (2 ^ 53) with 9007199254740992; exact Hx).
  split; [|split].
  - subst p. destruct page as [page|]; cbn [Search.page_index] in *;
      [|reflexivity].
    unfold SearchBounds.pageNum. rewrite Hr by lia.
    unfold Double.add. rewrite Hr by lia. f_equal; lia.
  - unfold SearchBounds.upperBound, Double.mul, Double.add.
    rewrite (Hr (p * 5)) by lia. rewrite (Hr (p * 5 + 5)) by lia.
    unfold Double.gtb.
    destruct (Z.ltb_spec n (p * 5 + 5)); f_equal; lia.
  - unfold SearchBounds.lowerBound, Double.mul, Double.add.
    rewrite (Hr (p * 5)) by lia. rewrite (Hr (p * 5 + 1)) by lia.
    f_equal. lia.
Qed.

(** C2, as amended.  For every successful search with [n] results and a page
    index [p] for which [5p] and [5p+5] lie strictly between -2^53 and 2^53,
    where the arithmetic of the handler is exact, the upper bound is
    [min (5p+5) n] and the lower bound is [5p+1]; the handler completes
    normally whatever [n] is, 0 included.  With 12 results and page 3 the
    window is the items at offsets 10 and 11, the upper bound 12 and the
    lower bound 11. *)
Theorem search_bounds_C2 :
  forall (db : string -> db_outcome Search.row)
         (w : world Search.request Empty_set) (result : list Search.row),
    let q := Search.query (req w) in
    let p := Search.page_index (Search.page_param q) in
    let n := Z.of_nat (length result) in
    db (Search.search_query (Search.search_param q) (Search.category_param q))
      = DbOk result ->
    - 2 ^ 53 < 5 * p ->
    5 * p + 5 < 2 ^ 53 ->
    let out := Search.search db next w in
    fst out = Normal tt /\
    Search.upperBound (req (snd out)) = Val (Z.min (5 * p + 5) n) /\
    Search.lowerBound (req (snd out)) = Val (5 * p + 1) /\
    Search.totalNum (req (snd out)) = Some n /\
    SearchBounds.pageNum (Search.page_param q) = Double.Finite p /\
    SearchBounds.upperBound (Double.Finite p) n
      = Double.Finite (Z.min (5 * p + 5) n) /\
    SearchBounds.lowerBound (Double.Finite p) = Double.Finite (5 * p + 1) /\
    (n = 12 -> Search.page_param q = Some 3 ->
     Search.searchResult (req (snd out)) = Val (firstn 2 (skipn 10 result)) /\
     Search.upperBound (req (snd out)) = Val 12 /\
     Search.lowerBound (req (snd out)) = Val 11).
Proof.
  intros db w result q p n Hdb Hlow Hhigh out.
  destruct (page_arithmetic_exact (Search.page_param q) n Hlow Hhigh)
    as [Hnum [Hupper Hlower]].
  subst out. rewrite (search_found db next w result Hdb).
  fold q p n.
  cbn [next modify fst snd req Search.searchResult Search.upperBound
       Search.lowerBound Search.totalNum].
  assert (Hup : (if (p * 5 + 5 >? n)%Z then n else p * 5 + 5)
                = Z.min (5 * p + 5) n).
  { destruct (Z.gtb_spec (p * 5 + 5) n); lia. }
  rewrite Hup.
  assert (Hpage : Search.page_param q = Some 3 -> p = 2).
  { intros E. subst p. now rewrite E. }
  split; [reflexivity|].
  split; [reflexivity|].
  split; [f_equal; lia|].
  split; [reflexivity|].
  split; [exact Hnum|].
  split; [exact Hupper|].
  split; [exact Hlower|].
  intros Hn H3. rewrite (Hpage H3).
  rewrite (slice_page_window result 2) by lia.
  unfold Search.page_window. change (Z.to_nat (5 * 2)) with 10%nat.
  repeat split.
  - f_equal. rewrite !firstn_all2; trivial; rewrite length_skipn; lia.
  - f_equal. lia.
Qed.

Lemma search_bounds_C2_witness :
  let out := Search.search Search.sample_db next
               (Search.sample_world (Some "Ada") None (Some 3)) in
  Search.searchResult (req (snd out))
    = Val [Search.sample_row 11 None; Search.sample_row 12 None] /\
  Search.upperBound (req (snd out)) = Val 12 /\
  Search.lowerBound (req (snd out)) = Val 11.
Proof.
  apply (search_bounds_C2 Search.sample_db
           (Search.sample_world (Some "Ada") None (Some 3))
           Search.sample_rows); reflexivity.
Defined.

(** C2, as stated, fails for a page whose arithmetic leaves the exact range.
    For page 2026619832316722 the page index is 2026619832316721; five times
    it, 10133099161583605, lies above 2^53 and is not a double, so the
    product is rounded to 10133099161583604, and adding 1 rounds to the same
    number: the lower bound stored is not [5p+1]. *)
Lemma search_bounds_C2_counterexample :
  let p := 2026619832316721 in
  SearchBounds.pageNum (Some 2026619832316722) = Double.Finite p /\
  SearchBounds.lowerBound (Double.Finite p)
    = Double.Finite 10133099161583604 /\
  5 * p + 1 = 10133099161583606 /\
  SearchBounds.lowerBound (Double.Finite p) <> Double.Finite (5 * p + 1).
Proof.
  repeat split. vm_compute. discriminate.
Qed.

(** C4.  For every search request whose term and category are both the empty
    string, the handler sends the default query, whose only condition is the
    approval flag; what the database returns for it is attached unfiltered
    (total count and page window). *)
Theorem search_unfiltered_C4 :
  forall (db : string -> db_outcome Search.row)
         (w : world Search.request Empty_set),
    let q := Search.query (req w) in
    let p := Search.page_index (Search.page_param q) in
    Search.search_param q = Some "" ->
    Search.category_param q = Some "" ->
    let out := Search.search db next w in
    queries (snd out) = (queries w ++ [Search.query_default])%list /\
    Search.query_default
      = Search.select_from ++ "WHERE tutor_post.admin_approved = 1" /\
    (forall result : list Search.row,
       db Search.query_default = DbOk result ->
       Search.totalNum (req (snd out)) = Some (Z.of_nat (length result)) /\
       Search.searchResult (req (snd out))
         = Val (slice result (p * 5) (p * 5 + 5))).
Proof.
  intros db w q p Hterm Hcat out.
  assert (Htext :
    Search.search_query (Search.search_param q) (Search.category_param q)
    = Search.query_default).
  { rewrite Hterm, Hcat. reflexivity. }
  split; [|split].
  - subst out. rewrite search_sends_one_query. fold q. now rewrite Htext.
  - apply query_default_text.
  - intros result Hdb. subst out.
    rewrite (search_found db next w result); [|fold q; now rewrite Htext].
    split; reflexivity.
Qed.

Lemma search_unfiltered_C4_witness :
  queries (snd (Search.search Search.sample_db next
                  (Search.sample_world (Some "") (Some "") None)))
  = [Search.query_default].
Proof.
  apply (search_unfiltered_C4 Search.sample_db
           (Search.sample_world (Some "") (Some "") None)); reflexivity.
Defined.

(** C9.  A parameter the query string omits is [undefined], which is not the
    empty string; a request with neither [search] nor [category] therefore
    gets the query that filters first and last names by the text
    [undefined], not the default query. *)
Theorem search_absent_parameters_C9 :
  is_blank None = false /\
  forall (db : string -> db_outcome Search.row)
         (w : world Search.request Empty_set),
    let q := Search.query (req w) in
    Search.search_param q = None ->
    Search.category_param q = None ->
    queries (snd (Search.search db next w))
      = (queries w
         ++ [(Search.select_from ++ "WHERE tutor_post.admin_approved = 1 AND"
              ++ "(users.first_name LIKE '%undefined%' OR users.last_name LIKE '%undefined%')")%string])%list /\
    Search.search_query None None = Search.query_term_and_category None /\
    Search.query_term_and_category None = Search.query_term_only None /\
    Search.search_query None None <> Search.query_default.
Proof.
  split; [reflexivity|].
  intros db w q Hterm Hcat.
  split; [|split; [|split]].
  - rewrite search_sends_one_query. fold q. rewrite Hterm, Hcat. reflexivity.
  - reflexivity.
  - reflexivity.
  - intros E. apply (f_equal String.length) in E. vm_compute in E. discriminate.
Qed.

Lemma search_absent_parameters_C9_witness :
  queries (snd (Search.search Search.sample_db next
                  (Search.sample_world None None None)))
  = [Search.query_term_only None].
Proof.
  apply (proj2 search_absent_parameters_C9 Search.sample_db
           (Search.sample_world None None None)); reflexivity.
Defined.

Lemma search_query_ignores_category (term c1 c2 : param) :
  is_blank term = false ->
  Search.search_query term c1 = Search.search_query term c2.
Proof.
  intros Hterm. unfold Search.search_query. rewrite Hterm. cbn [negb andb].
  destruct (is_blank c1), (is_blank c2); reflexivity.
Qed.

(** C10.  For every search term other than the empty string the query text is
    the same whatever the category: the term-and-category text is the
    term-only text, so no category condition is sent, and everything the
    handler derives from the database answer (window, thumbnails, total,
    bounds) is the same for any two categories. *)
Theorem search_category_ignored_C10 :
  forall term : param,
    is_blank term = false ->
    Search.query_term_and_category term = Search.query_term_only term /\
    (forall c1 c2 : param,
       Search.search_query term c1 = Search.search_query term c2) /\
    (forall (db : string -> db_outcome Search.row)
            (w : world Search.request Empty_set) (c1 c2 : param),
       Search.search_param (Search.query (req w)) = term ->
       let out1 := Search.search db next (Search.with_category c1 w) in
       let out2 := Search.search db next (Search.with_category c2 w) in
       fst out1 = fst out2 /\
       queries (snd out1) = queries (snd out2) /\
       console (snd out1) = console (snd out2) /\
       continued (snd out1) = continued (snd out2) /\
       Search.searchResult (req (snd out1)) = Search.searchResult (req (snd out2)) /\
       Search.thumbnails (req (snd out1)) = Search.thumbnails (req (snd out2)) /\
       Search.totalNum (req (snd out1)) = Search.totalNum (req (snd out2)) /\
       Search.upperBound (req (snd out1)) = Search.upperBound (req (snd out2)) /\
       Search.lowerBound (req (snd out1)) = Search.lowerBound (req (snd out2)) /\
       Search.searchTerm (req (snd out1)) = Search.searchTerm (req (snd out2)) /\
       Search.pageNum (req (snd out1)) = Search.pageNum (req (snd out2)) /\
       Search.images (req (snd out1)) = Search.images (req (snd out2))).
Proof.
  intros term Hterm.
  split; [reflexivity|].
  split; [intros c1 c2; now apply search_query_ignores_category|].
  intros db w c1 c2 Hw out1 out2. subst out1 out2.
  pose proof (search_query_ignores_category term c1 c2 Hterm) as Hsame.
  destruct (db (Search.search_query term c1)) as [err|result] eqn:Hdb1.
  - assert (Hdb2 : db (Search.search_query term c2) = DbErr err)
      by (now rewrite <- Hsame).
    rewrite <- Hw in Hdb1, Hdb2, Hsame.
    rewrite (search_failed db next (Search.with_category c1 w) err Hdb1).
    rewrite (search_failed db next (Search.with_category c2 w) err Hdb2).
    cbn [next modify fst snd req console queries continued Search.with_category
         Search.query Search.search_param Search.category_param
         Search.page_param Search.searchResult Search.thumbnails
         Search.totalNum Search.upperBound Search.lowerBound Search.searchTerm
         Search.pageNum Search.images].
    rewrite Hsame. repeat split.
  - assert (Hdb2 : db (Search.search_query term c2) = DbOk result)
      by (now rewrite <- Hsame).
    rewrite <- Hw in Hdb1, Hdb2, Hsame.
    rewrite (search_found db next (Search.with_category c1 w) result Hdb1).
    rewrite (search_found db next (Search.with_category c2 w) result Hdb2).
    cbn [next modify fst snd req console queries continued Search.with_category
         Search.query Search.search_param Search.category_param
         Search.page_param Search.searchResult Search.thumbnails
         Search.totalNum Search.upperBound Search.lowerBound Search.searchTerm
         Search.pageNum Search.images].
    rewrite Hsame. repeat split.
Qed.

Lemma search_category_ignored_C10_witness :
  queries (snd (Search.search Search.sample_db next
     (Search.with_category (Some "CSC") (Search.sample_world (Some "Ada") None None))))
  = queries (snd (Search.search Search.sample_db next
     (Search.with_category (Some "") (Search.sample_world (Some "Ada") None None)))).
Proof.
  apply (proj2 (proj2 (search_category_ignored_C10 (Some "Ada") eq_refl))
           Search.sample_db (Search.sample_world (Some "Ada") None None)
           (Some "CSC") (Some "") eq_refl).
Defined.

(** ** The category loader *)

Lemma push_run (get : Categories.exchange -> option (list string))
  (set : option (list string) -> Categories.exchange -> Categories.exchange)
  (arg : M Categories.state string) (w : Categories.state)
  (items : list string) (v : string) :
  get (req w) = Some items ->
  arg w = (Normal v, w) ->
  Categories.push get set arg w
  = (Normal tt,
     mkWorld (set (Some (items ++ [v])%list) (req w))
       (console w) (queries w) (continued w)).
Proof.
  intros Hget Harg. unfold Categories.push.
  rewrite (bind_normal _ _ w w (Some items)) by (unfold gets; now rewrite Hget).
  now rewrite (bind_normal _ _ w w v Harg).
Qed.

Lemma categories_loop (post pre : list Categories.major)
  (shorts longs : list string) (ls ll : option (list string))
  (out : list (printed Empty_set)) (sent : list string) (k : nat) :
  for_from (length post) (length pre)
    (fun i (_ : unit) =>
       Categories.push Categories.majors_short_name
         Categories.set_majors_short_name
         (read_at (pre ++ post)%list i "major_short_name"
            Categories.major_short_name) ;;;
       Categories.push Categories.majors_long_name
         Categories.set_majors_long_name
         (read_at (pre ++ post)%list i "major_long_name"
            Categories.major_long_name))
    tt
    (mkWorld
       {| Categories.majors_short_name := Some shorts;
          Categories.majors_long_name := Some longs;
          Categories.searchCategoriesShortName := ls;
          Categories.searchCategoriesLongName := ll |}
       out sent k)
  = (Normal tt,
     mkWorld
       {| Categories.majors_short_name :=
            Some (shorts ++ map Categories.major_short_name post)%list;
          Categories.majors_long_name :=
            Some (longs ++ map Categories.major_long_name post)%list;
          Categories.searchCategoriesShortName := ls;
          Categories.searchCategoriesLongName := ll |}
       out sent k).
Proof.
  revert pre shorts longs.
  induction post as [|x post IH]; intros pre shorts longs; simpl.
  - unfold ret. now rewrite !app_nil_r.
  - erewrite bind_normal; cycle 1.
    { erewrite bind_normal; cycle 1.
      { apply push_run; [reflexivity | apply read_at_middle]. }
      apply push_run; [reflexivity | apply read_at_middle]. }
    unfold Categories.set_majors_long_name, Categories.set_majors_short_name.
    cbn [req Categories.majors_short_name Categories.majors_long_name
         Categories.searchCategoriesShortName
         Categories.searchCategoriesLongName].
    replace (pre ++ x :: post)%list with ((pre ++ [x]) ++ post)%list
      by (now rewrite <- app_assoc).
    rewrite <- (length_snoc pre x).
    rewrite IH. now rewrite <- !app_assoc.
Qed.

(** The world [getSearchCategories] hands to its continuation. *)
Lemma getSearchCategories_run (db : string -> db_outcome Categories.major)
  (callback : M Categories.state unit) (w : Categories.state) :
  Categories.getSearchCategories db callback w
  = callback
      match db "SELECT * FROM major" with
      | DbErr _ =>
          mkWorld
            {| Categories.majors_short_name := Some [];
               Categories.majors_long_name := Some [];
               Categories.searchCategoriesShortName :=
                 Categories.searchCategoriesShortName (req w);
               Categories.searchCategoriesLongName :=
                 Categories.searchCategoriesLongName (req w) |}
            (console w
             ++ [Line "Encountered an error when performing query: SELECT * FROM major"])%list
            (queries w ++ ["SELECT * FROM major"])%list (continued w)
      | DbOk result =>
          mkWorld
            {| Categories.majors_short_name :=
                 Some (map Categories.major_short_name result);
               Categories.majors_long_name :=
                 Some (map Categories.major_long_name result);
               Categories.searchCategoriesShortName :=
                 Some (map Categories.major_short_name result);
               Categories.searchCategoriesLongName :=
                 Some (map Categories.major_long_name result) |}
            (console w) (queries w ++ ["SELECT * FROM major"])%list
            (continued w)
      end.
Proof.
  unfold Categories.getSearchCategories.
  unfold bind at 1. unfold database_query.
  destruct (db "SELECT * FROM major") as [err|result].
  - reflexivity.
  - erewrite bind_normal; [|reflexivity].
    erewrite bind_normal; [|reflexivity].
    erewrite bind_normal; cycle 1.
    { erewrite bind_normal; cycle 1.
      { exact (categories_loop result [] [] []
                 (Categories.searchCategoriesShortName (req w))
                 (Categories.searchCategoriesLongName (req w))
                 (console w) (queries w ++ ["SELECT * FROM major"])%list
                 (continued w)). }
      reflexivity. }
    reflexivity.
Qed.

Example getSearchCategories_two_majors :
  let out :=
    Categories.getSearchCategories
      (fun _ => DbOk [ Categories.mkMajor 1 "CSC" "Computer Science";
                       Categories.mkMajor 2 "MATH" "Mathematics" ])
      next
      (start (Categories.mkExchange None None None None)) in
  fst out = Normal tt /\
  Categories.majors_short_name (req (snd out)) = Some ["CSC"; "MATH"] /\
  Categories.searchCategoriesLongName (req (snd out))
    = Some ["Computer Science"; "Mathematics"].
Proof. repeat split. Qed.

(** C3.  Whatever the database answers, [getSearchCategories] completes
    normally and runs its continuation exactly once, as its last step; when
    the query fails, the two category lists of the request are empty arrays
    (and when it succeeds, the names of the rows, in order). *)
Theorem getSearchCategories_total_C3 :
  forall (db : string -> db_outcome Categories.major) (w : Categories.state),
    let out := Categories.getSearchCategories db next w in
    fst out = Normal tt /\
    continued (snd out) = Datatypes.S (continued w) /\
    (exists w1 : Categories.state,
       forall callback : M Categories.state unit,
         Categories.getSearchCategories db callback w = callback w1) /\
    match db "SELECT * FROM major" with
    | DbErr _ =>
        Categories.majors_short_name (req (snd out)) = Some [] /\
        Categories.majors_long_name (req (snd out)) = Some []
    | DbOk result =>
        Categories.majors_short_name (req (snd out))
          = Some (map Categories.major_short_name result) /\
        Categories.majors_long_name (req (snd out))
          = Some (map Categories.major_long_name result)
    end.
Proof.
  intros db w out. subst out.
  rewrite getSearchCategories_run.
  split; [reflexivity|].
  split; [destruct (db "SELECT * FROM major"); reflexivity|].
  split.
  - eexists. intros callback. apply getSearchCategories_run.
  - destruct (db "SELECT * FROM major"); split; reflexivity.
Qed.

(** ** The dashboard *)

Lemma dashboard_loop (result : list Dashboard.row) (r1 : Dashboard.row) :
  nth_error result 1 = Some r1 ->
  forall (post pre : list Dashboard.row) (acc : list Dashboard.message)
         (w : Dashboard.state),
    result = (pre ++ post)%list ->
    for_from (length post) (length pre)
      (fun i messages =>
         unread <- read_at result 1 "is_unread" Dashboard.is_unread ;;
         let status := if Dashboard.truthy unread then "Unread" else "Read" in
         first <- read_at result i "from_user_first_name"
                    Dashboard.from_user_first_name ;;
         last <- read_at result i "from_user_last_name"
                   Dashboard.from_user_last_name ;;
         text <- read_at result i "message_text" Dashboard.message_text ;;
         sent <- read_at result i "date_sent" Dashboard.date_sent ;;
         let messages :=
           (messages ++ [ {| Dashboard.tutorName := first ++ " " ++ last;
                             Dashboard.messageText := text;
                             Dashboard.dateTime := sent;
                             Dashboard.status := status |} ])%list in
         console_inspect messages ;;;
         ret messages)
      acc w
    = (Normal
         (acc ++ map (Dashboard.entry (Dashboard.label (Dashboard.is_unread r1)))
                   post)%list,
       mkWorld (req w)
         (console w
          ++ Dashboard.snapshots (Dashboard.label (Dashboard.is_unread r1))
               acc post)%list
         (queries w) (continued w)).
Proof.
  intros Hr1.
  induction post as [|x post IH]; intros pre acc w Hres; simpl.
  - unfold ret. rewrite !app_nil_r. now destruct w.
  - assert (Hx : nth_error result (length pre) = Some x)
      by (rewrite Hres; apply nth_error_middle).
    erewrite bind_normal; cycle 1.
    { erewrite bind_normal; [|apply (read_at_some _ _ _ _ _ _ Hr1)].
      erewrite bind_normal; [|apply (read_at_some _ _ _ _ _ _ Hx)].
      erewrite bind_normal; [|apply (read_at_some _ _ _ _ _ _ Hx)].
      erewrite bind_normal; [|apply (read_at_some _ _ _ _ _ _ Hx)].
      erewrite bind_normal; [|apply (read_at_some _ _ _ _ _ _ Hx)].
      erewrite bind_normal; [|reflexivity].
      reflexivity. }
    rewrite <- (length_snoc pre x).
    rewrite IH by (now rewrite <- app_assoc).
    cbn [req console queries continued].
    now rewrite <- !app_assoc.
Qed.

(** [loadDashboard] on a result set that has a row at index 1. *)
Lemma loadDashboard_rows (db : string -> db_outcome Dashboard.row)
  (w : Dashboard.state) (result : list Dashboard.row) (r1 : Dashboard.row) :
  db (Dashboard.inbox_query 2) = DbOk result ->
  nth_error result 1 = Some r1 ->
  let status := Dashboard.label (Dashboard.is_unread r1) in
  Dashboard.loadDashboard db w
  = (Normal tt,
     mkWorld
       (Dashboard.render "studentDashboard"
          (map (Dashboard.entry status) result) (req w))
       (console w ++ Dashboard.snapshots status [] result)%list
       (queries w ++ [Dashboard.inbox_query 2])%list (continued w)).
Proof.
  intros Hdb Hr1 status.
  unfold Dashboard.loadDashboard.
  erewrite bind_normal; [|reflexivity].
  erewrite bind_normal; [|reflexivity].
  rewrite Hdb.
  erewrite bind_normal; cycle 1.
  { unfold for_range.
    apply (dashboard_loop result r1 Hr1 result [] []). reflexivity. }
  reflexivity.
Qed.

(** [loadDashboard] when the query fails. *)
Lemma loadDashboard_failed (db : string -> db_outcome Dashboard.row)
  (w : Dashboard.state) (err : string) :
  db (Dashboard.inbox_query 2) = DbErr err ->
  Dashboard.loadDashboard db w
  = (Normal tt,
     mkWorld (Dashboard.render "studentDashboard" [] (req w))
       (console w
        ++ [Line ("Encountered an error when performing query: "
                  ++ Dashboard.inbox_query 2)])%list
       (queries w ++ [Dashboard.inbox_query 2])%list (continued w)).
Proof.
  intros Hdb.
  unfold Dashboard.loadDashboard.
  erewrite bind_normal; [|reflexivity].
  erewrite bind_normal; [|reflexivity].
  rewrite Hdb. reflexivity.
Qed.

(** [loadDashboard] on an empty result set. *)
Lemma loadDashboard_empty (db : string -> db_outcome Dashboard.row)
  (w : Dashboard.state) :
  db (Dashboard.inbox_query 2) = DbOk [] ->
  Dashboard.loadDashboard db w
  = (Normal tt,
     mkWorld (Dashboard.render "studentDashboard" [] (req w))
       (console w) (queries w ++ [Dashboard.inbox_query 2])%list (continued w)).
Proof.
  intros Hdb.
  unfold Dashboard.loadDashboard.
  erewrite bind_normal; [|reflexivity].
  erewrite bind_normal; [|reflexivity].
  rewrite Hdb. reflexivity.
Qed.

(** [loadDashboard] on a result set of one row: reading row 1 throws before
    anything is rendered. *)
Lemma loadDashboard_single (db : string -> db_outcome Dashboard.row)
  (w : Dashboard.state) (r : Dashboard.row) :
  db (Dashboard.inbox_query 2) = DbOk [r] ->
  Dashboard.loadDashboard db w
  = (Throw (TypeError "Cannot read properties of undefined (reading 'is_unread')"),
     mkWorld (req w) (console w)
       (queries w ++ [Dashboard.inbox_query 2])%list (continued w)).
Proof.
  intros Hdb.
  unfold Dashboard.loadDashboard.
  erewrite bind_normal; [|reflexivity].
  erewrite bind_normal; [|reflexivity].
  rewrite Hdb. reflexivity.
Qed.

(** An empty inbox renders an empty list. *)
Example loadDashboard_no_messages :
  let out := Dashboard.loadDashboard (fun _ => DbOk [])
               (Dashboard.sample_world (Some 9)) in
  fst out = Normal tt /\
  Dashboard.rendered (req (snd out)) = [("studentDashboard", [])].
Proof. repeat split. Qed.

(** C5.  Two requests that differ only in the user of the session make
    [loadDashboard] send the same query, the one for the messages of user 2,
    and, on the same database, render the same messages: nothing the handler
    produces depends on the caller. *)
Theorem loadDashboard_ignores_session_C5 :
  forall (db : string -> db_outcome Dashboard.row)
         (views : list (string * list Dashboard.message))
         (out : list (printed (list Dashboard.message)))
         (sent : list string) (k : nat) (u1 u2 : option Z),
    let world u :=
      mkWorld {| Dashboard.session_userID := u; Dashboard.rendered := views |}
        out sent k in
    let run1 := Dashboard.loadDashboard db (world u1) in
    let run2 := Dashboard.loadDashboard db (world u2) in
    fst run1 = fst run2 /\
    queries (snd run1) = (sent ++ [Dashboard.inbox_query 2])%list /\
    queries (snd run2) = (sent ++ [Dashboard.inbox_query 2])%list /\
    Dashboard.inbox_query 2
      = Dashboard.select_from ++ "WHERE messages.to_user = 2" ++ Dashboard.nl
        ++ "ORDER BY messages.date_sent DESC" /\
    Dashboard.rendered (req (snd run1)) = Dashboard.rendered (req (snd run2)) /\
    console (snd run1) = console (snd run2) /\
    continued (snd run1) = continued (snd run2).
Proof.
  intros db views out sent k u1 u2 world run1 run2. subst run1 run2.
  destruct (db (Dashboard.inbox_query 2)) as [err|[|r0 [|r1 rest]]] eqn:Hdb.
  - rewrite !(loadDashboard_failed db _ err Hdb). repeat split.
  - rewrite !(loadDashboard_empty db _ Hdb). repeat split.
  - rewrite !(loadDashboard_single db _ r0 Hdb). repeat split.
  - rewrite !(loadDashboard_rows db _ _ r1 Hdb eq_refl). repeat split.
Qed.

(** C6.  For every non-empty dashboard result set, every message entry
    the handler renders carries the status computed from the unread flag of
    the row at index 1 of the result set, not of its own row: the entry reads
    [Unread] if and only if row 1 is unread.  From two rows on, one view is
    rendered, with one such entry per row. *)
Theorem loadDashboard_status_from_row_1_C6 :
  forall (db : string -> db_outcome Dashboard.row) (w : Dashboard.state)
         (r0 : Dashboard.row) (rest : list Dashboard.row),
    db (Dashboard.inbox_query 2) = DbOk (r0 :: rest) ->
    let result := r0 :: rest in
    let out := Dashboard.loadDashboard db w in
    exists added : list (string * list Dashboard.message),
      Dashboard.rendered (req (snd out))
        = (Dashboard.rendered (req w) ++ added)%list /\
      (forall (view : string) (messages : list Dashboard.message)
              (m : Dashboard.message),
         In (view, messages) added ->
         In m messages ->
         exists r1 : Dashboard.row,
           nth_error result 1 = Some r1 /\
           (Dashboard.status m = "Unread" <-> Dashboard.is_unread r1 <> 0)) /\
      (forall r1 : Dashboard.row,
         nth_error result 1 = Some r1 ->
         fst out = Normal tt /\
         added
           = [("studentDashboard",
               map (Dashboard.entry (Dashboard.label (Dashboard.is_unread r1)))
                 result)]).
Proof.
  intros db w r0 rest Hdb result out. subst out.
  destruct rest as [|r1 rest].
  - rewrite (loadDashboard_single db w r0 Hdb).
    exists []. split; [now rewrite app_nil_r|].
    split; [intros view messages m []|].
    intros r1 Hr1. discriminate.
  - rewrite (loadDashboard_rows db w result r1 Hdb eq_refl).
    eexists. split; [reflexivity|].
    split.
    + intros view messages m [Hview|[]] Hm.
      injection Hview as _ <-.
      exists r1. split; [reflexivity|].
      assert (Hin : In m (map (Dashboard.entry
                                 (Dashboard.label (Dashboard.is_unread r1)))
                            (r0 :: r1 :: rest))) by exact Hm.
      apply in_map_iff in Hin. destruct Hin as [r [Hin _]]. subst m.
      cbn [Dashboard.entry Dashboard.status].
      unfold Dashboard.label, Dashboard.truthy.
      destruct (Z.eqb_spec (Dashboard.is_unread r1) 0) as [E|E]; cbn [negb].
      * split; [discriminate|]. intros Hne. now elim Hne.
      * split; [intros _; exact E|reflexivity].
    + intros r1' Hr1. injection Hr1 as <-. split; reflexivity.
Qed.

Lemma loadDashboard_status_from_row_1_C6_witness :
  let result :=
    [Dashboard.sample_row 1 1; Dashboard.sample_row 2 0;
     Dashboard.sample_row 3 1] in
  let out := Dashboard.loadDashboard Dashboard.sample_inbox
               (Dashboard.sample_world (Some 9)) in
  exists added : list (string * list Dashboard.message),
    Dashboard.rendered (req (snd out)) = ([] ++ added)%list /\
    (forall (view : string) (messages : list Dashboard.message)
            (m : Dashboard.message),
       In (view, messages) added ->
       In m messages ->
       exists r1 : Dashboard.row,
         nth_error result 1 = Some r1 /\
         (Dashboard.status m = "Unread" <-> Dashboard.is_unread r1 <> 0)) /\
    (forall r1 : Dashboard.row,
       nth_error result 1 = Some r1 ->
       fst out = Normal tt /\
       added
         = [("studentDashboard",
             map (Dashboard.entry (Dashboard.label (Dashboard.is_unread r1)))
               result)]).
Proof.
  apply (loadDashboard_status_from_row_1_C6 Dashboard.sample_inbox
           (Dashboard.sample_world (Some 9))
           (Dashboard.sample_row 1 1)
           [Dashboard.sample_row 2 0; Dashboard.sample_row 3 1] eq_refl).
Defined.

(** Row 0 and row 2 of the sample inbox are unread and row 1 is read: all
    three entries read [Read]. *)
Example loadDashboard_sample_inbox :
  Dashboard.rendered
    (req (snd (Dashboard.loadDashboard Dashboard.sample_inbox
                 (Dashboard.sample_world (Some 9)))))
  = [("studentDashboard",
      [Dashboard.entry "Read" (Dashboard.sample_row 1 1);
       Dashboard.entry "Read" (Dashboard.sample_row 2 0);
       Dashboard.entry "Read" (Dashboard.sample_row 3 1)])].
Proof. reflexivity. Qed.

(** A result set of one row has no row at index 1: the handler throws while
    it computes the first status and renders nothing. *)
Example loadDashboard_single_row :
  let out := Dashboard.loadDashboard Dashboard.single_inbox
               (Dashboard.sample_world (Some 9)) in
  nth_error [Dashboard.sample_row 1 1] 1 = None /\
  fst out
    = Throw (TypeError "Cannot read properties of undefined (reading 'is_unread')") /\
  Dashboard.rendered (req (snd out)) = [].
Proof.
  repeat split.
Qed.

(** ** The tutor-post handler *)

Lemma length_geb_0 {A} (l : list A) : (Z.of_nat (length l) >=? 0)%Z = true.
Proof.
  apply Z.geb_le. lia.
Qed.

Section PostRoute.

Variable mysql_format : string -> list param -> string.
Variable sharp : buffer -> Z -> string -> completion TutorPost.promise.
Variable major_db : string -> db_outcome TutorPost.major_id_row.
Variable course_db : string -> db_outcome TutorPost.course_id_row.

(** Every way a request goes through the [POST] route. *)
Lemma post_route_cases (w : TutorPost.state) :
  let majorQ := TutorPost.major_lookup mysql_format (req w) in
  let courseQ := TutorPost.course_lookup mysql_format (req w) in
  let redirected := TutorPost.redirect "/" (req w) in
  TutorPost.post_route mysql_format sharp major_db course_db w
  = match TutorPost.file (req w) with
    | None =>
        TutorPost.mkRun
          (Throw (TypeError "Cannot read properties of undefined (reading 'buffer')"))
          None w
    | Some image =>
        match sharp image 600 "tmp.png" with
        | Throw e => TutorPost.mkRun (Throw e) None w
        | Normal (TutorPost.Rejected msg) =>
            TutorPost.mkRun (Normal tt) None
              (mkWorld redirected
                 (console w ++ [Line ("downisze issue Error: " ++ msg)])%list
                 (queries w) (continued w))
        | Normal (TutorPost.Fulfilled png) =>
            let stored :=
              TutorPost.set_postCreated (Some false)
                (TutorPost.write_file "tmp.png" png redirected) in
            match major_db majorQ with
            | DbErr err =>
                TutorPost.mkRun (Normal tt)
                  (Some (TutorPost.UnhandledRejection (DbError err)))
                  (mkWorld stored
                     (console w
                      ++ [Line "Encountered an error when performing query: SELECT major_id FROM major WHERE major_short_name = ?"])%list
                     (queries w ++ [majorQ])%list (continued w))
            | DbOk [] =>
                TutorPost.mkRun (Normal tt)
                  (Some (TutorPost.UnhandledRejection
                     (TypeError "Cannot read properties of undefined (reading 'major_id')")))
                  (mkWorld stored
                     (console w ++ [Inspect []; Line "Getting major id."])%list
                     (queries w ++ [majorQ])%list (continued w))
            | DbOk (m :: ms) =>
                match course_db courseQ with
                | DbErr err =>
                    TutorPost.mkRun (Normal tt)
                      (Some (TutorPost.UncaughtException (DbError err)))
                      (mkWorld stored
                         (console w
                          ++ [Inspect (m :: ms); Line "Getting major id.";
                              Line courseQ;
                              Line "Encountered an error when performing query: SELECT course_id FROM course WHERE number = ?"])%list
                         (queries w ++ [majorQ; courseQ])%list (continued w))
                | DbOk courses =>
                    TutorPost.mkRun (Normal tt) None
                      (mkWorld stored
                         (console w
                          ++ [Inspect (m :: ms); Line "Getting major id.";
                              Line courseQ]
                          ++ (if (Z.of_nat (length courses) >? 0)%Z
                              then [Line "Inserting to database."]
                              else []))%list
                         (queries w ++ [majorQ; courseQ])%list (continued w))
                end
            end
        end
    end.
Proof.
  intros majorQ courseQ redirected.
  unfold TutorPost.post_route, TutorPost.handle, TutorPost.createTutorPost.
  unfold bind at 1. unfold gets at 1.
  destruct (TutorPost.file (req w)) as [image|]; [|reflexivity].
  unfold bind at 1. unfold bind at 1. unfold ret at 1. unfold completed.
  destruct (sharp image 600 "tmp.png") as [[png|msg]|e]; [| |reflexivity].
  - unfold bind at 1. unfold update at 1, modify at 1. unfold ret at 1.
    unfold TutorPost.settled, catch.
    cbn [TutorPost.resizing TutorPost.majorIdQueryFormatted].
    unfold bind at 1. unfold update at 1, modify at 1.
    unfold bind at 1. unfold update at 1, modify at 1.
    unfold bind at 1. unfold database_query at 1. unfold ret at 1.
    cbn [req console queries continued].
    fold redirected. fold (TutorPost.major_lookup mysql_format (req w)).
    fold majorQ.
    destruct (major_db majorQ) as [err|[|m ms]].
    + reflexivity.
    + unfold TutorPost.major_id_callback.
      unfold bind, console_inspect, console_log, modify, read_at, throw.
      cbn [length Z.of_nat Z.geb Z.compare nth_error req console queries
           continued].
      now rewrite <- !app_assoc.
    + unfold TutorPost.major_id_callback.
      rewrite length_geb_0.
      unfold bind at 1. unfold console_inspect at 1, modify at 1.
      unfold bind at 1. unfold console_log at 1, modify at 1.
      unfold bind at 1. unfold read_at at 1. cbn [nth_error]. unfold ret at 1.
      unfold bind at 1. unfold console_log at 1, modify at 1.
      unfold bind at 1. unfold database_query at 1. unfold ret at 1.
      cbn [req console queries continued TutorPost.courseIdQueryFormatted].
      fold (TutorPost.course_lookup mysql_format (req w)). fold courseQ.
      destruct (course_db courseQ) as [err|courses].
      * unfold TutorPost.course_id_callback.
        unfold bind, console_log, modify, throw.
        cbn [req console queries continued TutorPost.courseIdQuery].
        now rewrite <- !app_assoc.
      * unfold TutorPost.course_id_callback.
        destruct (Z.of_nat (length courses) >? 0)%Z;
          unfold bind, console_log, modify, ret;
          cbn [req console queries continued];
          now rewrite <- !app_assoc.
  - reflexivity.
Qed.

End PostRoute.

(** The lookups a complete request sends, with the sample formatter. *)
Example post_route_complete :
  let out :=
    TutorPost.post_route TutorPost.substitute TutorPost.sample_sharp
      TutorPost.one_major TutorPost.one_course
      (start (TutorPost.sample_exchange (Some TutorPost.sample_image))) in
  TutorPost.escaped out = None /\
  queries (TutorPost.final out)
    = ["SELECT major_id FROM major WHERE major_short_name = 'CSC'";
       "SELECT course_id FROM course WHERE number = '648'"] /\
  TutorPost.files (req (TutorPost.final out))
    = [("tmp.png", TutorPost.sample_image)].
Proof. repeat split. Qed.

(** C7.  In [createTutorPost] a database error of the major lookup, and one
    of the course lookup, is thrown again by the query callback and caught by
    nobody: the request ends with that error escaped (an unhandled rejection
    of the [async] callback, an uncaught exception of the plain one), with no
    default data put in its place. *)
Theorem createTutorPost_lookup_errors_escape_C7 :
  forall (mysql_format : string -> list param -> string)
         (sharp : buffer -> Z -> string -> completion TutorPost.promise)
         (major_db : string -> db_outcome TutorPost.major_id_row)
         (course_db : string -> db_outcome TutorPost.course_id_row)
         (w : TutorPost.state) (image png : buffer),
    TutorPost.file (req w) = Some image ->
    sharp image 600 "tmp.png" = Normal (TutorPost.Fulfilled png) ->
    let majorQ := TutorPost.major_lookup mysql_format (req w) in
    let courseQ := TutorPost.course_lookup mysql_format (req w) in
    let out := TutorPost.post_route mysql_format sharp major_db course_db w in
    (forall err : string,
       major_db majorQ = DbErr err ->
       TutorPost.escaped out
         = Some (TutorPost.UnhandledRejection (DbError err)) /\
       queries (TutorPost.final out) = (queries w ++ [majorQ])%list) /\
    (forall (m : TutorPost.major_id_row) (ms : list TutorPost.major_id_row)
            (err : string),
       major_db majorQ = DbOk (m :: ms) ->
       course_db courseQ = DbErr err ->
       TutorPost.escaped out
         = Some (TutorPost.UncaughtException (DbError err)) /\
       queries (TutorPost.final out) = (queries w ++ [majorQ; courseQ])%list).
Proof.
  intros mysql_format sharp major_db course_db w image png Hfile Hsharp
         majorQ courseQ out.
  subst out. rewrite post_route_cases. fold majorQ courseQ.
  rewrite Hfile, Hsharp.
  split.
  - intros err Hmajor. rewrite Hmajor. split; reflexivity.
  - intros m ms err Hmajor Hcourse. rewrite Hmajor, Hcourse. split; reflexivity.
Qed.

Lemma createTutorPost_lookup_errors_escape_C7_witness :
  TutorPost.escaped
    (TutorPost.post_route TutorPost.substitute TutorPost.sample_sharp
       TutorPost.down TutorPost.one_course
       (start (TutorPost.sample_exchange (Some TutorPost.sample_image))))
  = Some (TutorPost.UnhandledRejection (DbError "connect ECONNREFUSED")) /\
  TutorPost.escaped
    (TutorPost.post_route TutorPost.substitute TutorPost.sample_sharp
       TutorPost.one_major TutorPost.down
       (start (TutorPost.sample_exchange (Some TutorPost.sample_image))))
  = Some (TutorPost.UncaughtException (DbError "connect ECONNREFUSED")).
Proof.
  split.
  - apply (proj1 (createTutorPost_lookup_errors_escape_C7
                    TutorPost.substitute TutorPost.sample_sharp
                    TutorPost.down TutorPost.one_course
                    (start (TutorPost.sample_exchange (Some TutorPost.sample_image)))
                    TutorPost.sample_image TutorPost.sample_image
                    eq_refl eq_refl)
             "connect ECONNREFUSED" eq_refl).
  - apply (proj2 (createTutorPost_lookup_errors_escape_C7
                    TutorPost.substitute TutorPost.sample_sharp
                    TutorPost.one_major TutorPost.down
                    (start (TutorPost.sample_exchange (Some TutorPost.sample_image)))
                    TutorPost.sample_image TutorPost.sample_image
                    eq_refl eq_refl)
             {| TutorPost.major_id := 3 |} [] "connect ECONNREFUSED"
             eq_refl eq_refl).
Defined.

(** C8, as amended.  For every input the only statements [createTutorPost]
    sends are the two lookups, in that order (no insert); whenever the request
    carries an image that the image library accepts, the handler returns
    normally and has called its callback exactly once, which redirects to the
    site root; and whenever the resize succeeds, [request.postCreated] is
    [false] at the end. *)
Theorem createTutorPost_sends_no_insert_C8 :
  forall (mysql_format : string -> list param -> string)
         (sharp : buffer -> Z -> string -> completion TutorPost.promise)
         (major_db : string -> db_outcome TutorPost.major_id_row)
         (course_db : string -> db_outcome TutorPost.course_id_row)
         (w : TutorPost.state),
    let majorQ := TutorPost.major_lookup mysql_format (req w) in
    let courseQ := TutorPost.course_lookup mysql_format (req w) in
    let out := TutorPost.post_route mysql_format sharp major_db course_db w in
    (queries (TutorPost.final out) = queries w \/
     queries (TutorPost.final out) = (queries w ++ [majorQ])%list \/
     queries (TutorPost.final out) = (queries w ++ [majorQ; courseQ])%list) /\
    (forall (image : buffer) (resizing : TutorPost.promise),
       TutorPost.file (req w) = Some image ->
       sharp image 600 "tmp.png" = Normal resizing ->
       TutorPost.returned out = Normal tt /\
       TutorPost.redirected (req (TutorPost.final out))
         = (TutorPost.redirected (req w) ++ ["/"])%list) /\
    (forall image png : buffer,
       TutorPost.file (req w) = Some image ->
       sharp image 600 "tmp.png" = Normal (TutorPost.Fulfilled png) ->
       TutorPost.postCreated (req (TutorPost.final out)) = Some false).
Proof.
  intros mysql_format sharp major_db course_db w majorQ courseQ out.
  subst out. rewrite post_route_cases. fold majorQ courseQ.
  split; [|split].
  - destruct (TutorPost.file (req w)) as [image|]; [|now left].
    destruct (sharp image 600 "tmp.png") as [[png|msg]|e];
      [|now left|now left].
    destruct (major_db majorQ) as [err|[|m ms]];
      [right; now left|right; now left|].
    destruct (course_db courseQ) as [err|courses]; right; now right.
  - intros image resizing Hfile Hsharp. rewrite Hfile, Hsharp.
    destruct resizing as [png|msg]; [|split; reflexivity].
    destruct (major_db majorQ) as [err|[|m ms]];
      [split; reflexivity|split; reflexivity|].
    destruct (course_db courseQ) as [err|courses]; split; reflexivity.
  - intros image png Hfile Hsharp. rewrite Hfile, Hsharp.
    destruct (major_db majorQ) as [err|[|m ms]]; [reflexivity|reflexivity|].
    destruct (course_db courseQ) as [err|courses]; reflexivity.
Qed.

Lemma createTutorPost_sends_no_insert_C8_witness :
  let out :=
    TutorPost.post_route TutorPost.substitute TutorPost.sample_sharp
      TutorPost.one_major TutorPost.one_course
      (start (TutorPost.sample_exchange (Some TutorPost.sample_image))) in
  (TutorPost.returned out = Normal tt /\
   TutorPost.redirected (req (TutorPost.final out)) = ["/"]) /\
  TutorPost.postCreated (req (TutorPost.final out)) = Some false.
Proof.
  split.
  - apply (proj1 (proj2 (createTutorPost_sends_no_insert_C8
                    TutorPost.substitute TutorPost.sample_sharp
                    TutorPost.one_major TutorPost.one_course
                    (start (TutorPost.sample_exchange (Some TutorPost.sample_image)))))
             TutorPost.sample_image (TutorPost.Fulfilled TutorPost.sample_image)
             eq_refl eq_refl).
  - apply (proj2 (proj2 (createTutorPost_sends_no_insert_C8
                    TutorPost.substitute TutorPost.sample_sharp
                    TutorPost.one_major TutorPost.one_course
                    (start (TutorPost.sample_exchange (Some TutorPost.sample_image)))))
             TutorPost.sample_image TutorPost.sample_image eq_refl eq_refl).
Defined.

(** C8, as stated, fails on two inputs.  A form without an image: the
    handler throws before it reaches its callback, so nothing redirects, and
    [request.postCreated] stays [undefined].  A form whose image the library
    rejects: the callback runs, and [request.postCreated] stays [undefined],
    not [false]. *)
Lemma createTutorPost_C8_counterexample :
  let no_image :=
    TutorPost.post_route TutorPost.substitute TutorPost.sample_sharp
      TutorPost.one_major TutorPost.one_course
      (start (TutorPost.sample_exchange None)) in
  let bad_image :=
    TutorPost.post_route TutorPost.substitute TutorPost.sample_sharp
      TutorPost.one_major TutorPost.one_course
      (start (TutorPost.sample_exchange (Some TutorPost.sample_text))) in
  (TutorPost.returned no_image
     = Throw (TypeError "Cannot read properties of undefined (reading 'buffer')") /\
   TutorPost.redirected (req (TutorPost.final no_image)) = [] /\
   TutorPost.postCreated (req (TutorPost.final no_image)) = None) /\
  (TutorPost.returned bad_image = Normal tt /\
   TutorPost.redirected (req (TutorPost.final bad_image)) = ["/"] /\
   TutorPost.postCreated (req (TutorPost.final bad_image)) = None).
Proof.
  repeat split.
Qed.

(** * Further properties *)

(** ** Slices *)

Lemma slice_window_length {A} (a : list A) (s : Z) :
  (length (slice a s (s + 5)) <= 5)%nat.
Proof.
  unfold slice. rewrite length_firstn.
  set (len := Z.of_nat (length a)).
  assert (0 <= len) by (subst len; lia).
  destruct (Z.ltb_spec s 0), (Z.ltb_spec (s + 5) 0); lia.
Qed.

Lemma slice_contiguous {A} (a : list A) (s e : Z) :
  exists pre post : list A, a = (pre ++ slice a s e ++ post)%list.
Proof.
  unfold slice. cbv zeta.
  match goal with
  | |- context [firstn ?c (skipn ?k a)] =>
      exists (firstn k a), (skipn c (skipn k a));
      now rewrite (firstn_skipn c), (firstn_skipn k)
  end.
Qed.

Lemma slice_map {A B} (f : A -> B) (a : list A) (s e : Z) :
  slice (map f a) s e = map f (slice a s e).
Proof.
  unfold slice. rewrite length_map.
  now rewrite skipn_map, firstn_map.
Qed.

Lemma slice_before_start {A} (a : list A) : slice a (-5) 0 = [].
Proof.
  unfold slice.
  change (-5 <? 0)%Z with true. change (0 <? 0)%Z with false. cbv iota zeta.
  match goal with
  | |- firstn ?c _ = _ => replace c with 0%nat by lia
  end.
  reflexivity.
Qed.

Lemma page_window_length {A} (items : list A) (p : Z) :
  0 <= p ->
  Z.of_nat (length (Search.page_window p items))
  = Z.max 0 (Z.min (5 * p + 5) (Z.of_nat (length items)) - (5 * p + 1) + 1).
Proof.
  intros Hp. unfold Search.page_window.
  rewrite length_firstn, length_skipn. lia.
Qed.

Lemma encoded_thumbnails_all (result : list Search.row) :
  (forall r, In r result -> Search.thumbnail r <> None) ->
  Search.encoded_thumbnails result = map SearchRoute.encoded result.
Proof.
  induction result as [|r result IH]; intros Hall; [reflexivity|].
  cbn [Search.encoded_thumbnails map]. unfold SearchRoute.encoded at 1.
  destruct (Search.thumbnail r) as [blob|] eqn:Hr.
  - f_equal. apply IH. intros r' Hr'. apply Hall. now right.
  - exfalso. apply (Hall r); [now left|exact Hr].
Qed.

Lemma encoded_thumbnails_length (result : list Search.row) :
  (length (Search.encoded_thumbnails result) <= length result)%nat.
Proof.
  induction result as [|r result IH]; [reflexivity|].
  cbn [Search.encoded_thumbnails length].
  destruct (Search.thumbnail r); cbn [length]; lia.
Qed.

(** ** The search handler, further *)


(** X2.  When the query fails, [search] degrades: the result, the bounds,
    the term and the category are the empty string, [images] is the empty
    array, [thumbnails] and [totalNum] are left as they were, and one line
    naming the query goes to the console. *)
Theorem search_degrades_X2 :
  forall (db : string -> db_outcome Search.row)
         (w : world Search.request Empty_set) (err : string),
    let q := Search.query (req w) in
    let text := Search.search_query (Search.search_param q) (Search.category_param q) in
    db text = DbErr err ->
    let out := Search.search db next w in
    fst out = Normal tt /\
    Search.searchResult (req (snd out)) = Text "" /\
    Search.searchTerm (req (snd out)) = Some "" /\
    Search.category (req (snd out)) = Some "" /\
    Search.images (req (snd out)) = Some [] /\
    Search.upperBound (req (snd out)) = Text "" /\
    Search.lowerBound (req (snd out)) = Text "" /\
    Search.thumbnails (req (snd out)) = Search.thumbnails (req w) /\
    Search.totalNum (req (snd out)) = Search.totalNum (req w) /\
    console (snd out)
      = (console w
         ++ [Line ("Encountered an error when performing query: " ++ text)])%list.
Proof.
  intros db w err q text Hdb out. subst out.
  rewrite (search_failed db next w err Hdb). repeat split.
Qed.

Lemma search_degrades_X2_witness :
  let out := Search.search (fun _ => DbErr "connect ECONNREFUSED") next
               (Search.sample_world (Some "Ada") (Some "CSC") (Some 2)) in
  fst out = Normal tt /\
  Search.searchResult (req (snd out)) = Text "" /\
  Search.searchTerm (req (snd out)) = Some "".
Proof.
  pose proof (search_degrades_X2 (fun _ => DbErr "connect ECONNREFUSED")
                (Search.sample_world (Some "Ada") (Some "CSC") (Some 2))
                "connect ECONNREFUSED" eq_refl) as H.
  exact (conj (proj1 H) (conj (proj1 (proj2 H)) (proj1 (proj2 (proj2 H))))).
Defined.

(** X3.  Every query text [search] builds is the common [SELECT] with the
    approval condition, followed by the term filter when the term is not the
    empty string, else by the category filter when the category is not the
    empty string, else by nothing.  The category filter follows [AND] with no
    blank between. *)
Theorem search_query_requires_approval_X3 :
  forall searchTerm category : param,
    Search.search_query searchTerm category
    = Search.select_from ++ "WHERE tutor_post.admin_approved = 1"
      ++ SearchRoute.filter_text searchTerm category.
Proof.
  intros searchTerm category.
  unfold Search.search_query, SearchRoute.filter_text.
  destruct (is_blank searchTerm), (is_blank category); reflexivity.
Qed.

(** X4.  On a successful search with page index [p >= 0] the pager bounds
    agree with the window: the window holds [upperBound - lowerBound + 1]
    rows, or none when that number is not positive, and the upper bound never
    exceeds the total. *)
Theorem search_bounds_count_window_X4 :
  forall (db : string -> db_outcome Search.row)
         (w : world Search.request Empty_set) (result : list Search.row),
    let q := Search.query (req w) in
    db (Search.search_query (Search.search_param q) (Search.category_param q))
      = DbOk result ->
    0 <= Search.page_index (Search.page_param q) ->
    let out := Search.search db next w in
    exists (window : list Search.row) (upper lower : Z),
      Search.searchResult (req (snd out)) = Val window /\
      Search.upperBound (req (snd out)) = Val upper /\
      Search.lowerBound (req (snd out)) = Val lower /\
      Z.of_nat (length window) = Z.max 0 (upper - lower + 1) /\
      upper <= Z.of_nat (length result).
Proof.
  intros db w result q Hdb Hp out. subst out.
  rewrite (search_found db next w result Hdb). fold q.
  set (p := Search.page_index (Search.page_param q)) in *.
  set (n := Z.of_nat (length result)).
  exists (Search.page_window p result), (Z.min (5 * p + 5) n), (5 * p + 1).
  cbn [next modify fst snd req Search.searchResult Search.upperBound
       Search.lowerBound].
  rewrite slice_page_window by exact Hp.
  split; [reflexivity|].
  split; [destruct (Z.gtb_spec (p * 5 + 5) n); f_equal; lia|].
  split; [f_equal; lia|].
  split; [apply page_window_length; exact Hp|lia].
Qed.

Lemma search_bounds_count_window_X4_witness :
  exists (window : list Search.row) (upper lower : Z),
    Search.searchResult
      (req (snd (Search.search Search.sample_db next
                   (Search.sample_world (Some "") (Some "") (Some 3)))))
      = Val window /\
    Search.upperBound
      (req (snd (Search.search Search.sample_db next
                   (Search.sample_world (Some "") (Some "") (Some 3)))))
      = Val upper /\
    Search.lowerBound
      (req (snd (Search.search Search.sample_db next
                   (Search.sample_world (Some "") (Some "") (Some 3)))))
      = Val lower /\
    Z.of_nat (length window) = Z.max 0 (upper - lower + 1) /\
    upper <= Z.of_nat (length Search.sample_rows).
Proof.
  apply (search_bounds_count_window_X4 Search.sample_db
           (Search.sample_world (Some "") (Some "") (Some 3))
           Search.sample_rows eq_refl).
  vm_compute. discriminate.
Defined.

(** X5.  For every page, negative ones included, a successful search
    attaches at most five rows, which are consecutive rows of the result in
    their order, and at most five thumbnails. *)
Theorem search_window_any_page_X5 :
  forall (db : string -> db_outcome Search.row)
         (w : world Search.request Empty_set) (result : list Search.row),
    let q := Search.query (req w) in
    db (Search.search_query (Search.search_param q) (Search.category_param q))
      = DbOk result ->
    let out := Search.search db next w in
    exists (window : list Search.row) (thumbnails : list buffer),
      Search.searchResult (req (snd out)) = Val window /\
      Search.thumbnails (req (snd out)) = Some thumbnails /\
      (length window <= 5)%nat /\
      (length thumbnails <= 5)%nat /\
      (exists pre post : list Search.row,
         result = (pre ++ window ++ post)%list).
Proof.
  intros db w result q Hdb out. subst out.
  rewrite (search_found db next w result Hdb). fold q.
  eexists. eexists.
  cbn [next modify fst snd req Search.searchResult Search.thumbnails].
  split; [reflexivity|].
  split; [reflexivity|].
  split; [apply slice_window_length|].
  split; [apply slice_window_length|].
  apply slice_contiguous.
Qed.

Lemma search_window_any_page_X5_witness :
  exists (window : list Search.row) (thumbnails : list buffer),
    Search.searchResult
      (req (snd (Search.search Search.sample_db next
                   (Search.sample_world (Some "") (Some "") (Some (-1))))))
      = Val window /\
    Search.thumbnails
      (req (snd (Search.search Search.sample_db next
                   (Search.sample_world (Some "") (Some "") (Some (-1))))))
      = Some thumbnails /\
    (length window <= 5)%nat /\
    (length thumbnails <= 5)%nat /\
    (exists pre post : list Search.row,
       Search.sample_rows = (pre ++ window ++ post)%list).
Proof.
  apply (search_window_any_page_X5 Search.sample_db
           (Search.sample_world (Some "") (Some "") (Some (-1)))
           Search.sample_rows eq_refl).
Defined.

(** X6.  Page 0 is taken as a page: the index is -1, and a successful search
    attaches no row and no thumbnail, with lower bound -4 and upper bound 0,
    whatever the result. *)
Theorem search_page_zero_X6 :
  forall (db : string -> db_outcome Search.row)
         (w : world Search.request Empty_set) (result : list Search.row),
    let q := Search.query (req w) in
    db (Search.search_query (Search.search_param q) (Search.category_param q))
      = DbOk result ->
    Search.page_param q = Some 0 ->
    let out := Search.search db next w in
    Search.pageNum (req (snd out)) = Some (-1) /\
    Search.searchResult (req (snd out)) = Val [] /\
    Search.thumbnails (req (snd out)) = Some [] /\
    Search.lowerBound (req (snd out)) = Val (-4) /\
    Search.upperBound (req (snd out)) = Val 0 /\
    Search.totalNum (req (snd out)) = Some (Z.of_nat (length result)).
Proof.
  intros db w result q Hdb Hpage out. subst out.
  rewrite (search_found db next w result Hdb). fold q. rewrite Hpage.
  cbn [next modify fst snd req Search.searchResult Search.thumbnails
       Search.pageNum Search.lowerBound Search.upperBound Search.totalNum
       Search.page_index].
  change ((0 - 1) * 5 + 5) with 0. change ((0 - 1) * 5) with (-5).
  rewrite !slice_before_start.
  repeat split.
  destruct (Z.gtb_spec 0 (Z.of_nat (length result))); [lia|].
  reflexivity.
Qed.

Lemma search_page_zero_X6_witness :
  Search.searchResult
    (req (snd (Search.search Search.sample_db next
                 (Search.sample_world (Some "") (Some "") (Some 0)))))
  = Val [].
Proof.
  apply (search_page_zero_X6 Search.sample_db
           (Search.sample_world (Some "") (Some "") (Some 0))
           Search.sample_rows eq_refl eq_refl).
Defined.

(** X7.  When every row of the result has a thumbnail, the thumbnails a
    successful search attaches are those of the rows it attaches, one for
    one, on every page.  (A row without one shifts the thumbnails of the
    rows after it.) *)
Theorem search_thumbnails_aligned_X7 :
  forall (db : string -> db_outcome Search.row)
         (w : world Search.request Empty_set) (result : list Search.row),
    let q := Search.query (req w) in
    db (Search.search_query (Search.search_param q) (Search.category_param q))
      = DbOk result ->
    (forall r : Search.row, In r result -> Search.thumbnail r <> None) ->
    let out := Search.search db next w in
    exists window : list Search.row,
      Search.searchResult (req (snd out)) = Val window /\
      Search.thumbnails (req (snd out)) = Some (map SearchRoute.encoded window).
Proof.
  intros db w result q Hdb Hall out. subst out.
  rewrite (search_found db next w result Hdb). fold q.
  eexists.
  cbn [next modify fst snd req Search.searchResult Search.thumbnails].
  split; [reflexivity|].
  rewrite (encoded_thumbnails_all result Hall).
  now rewrite slice_map.
Qed.

Lemma search_thumbnails_aligned_X7_witness :
  exists window : list Search.row,
    Search.searchResult
      (req (snd (Search.search
                   (fun _ => DbOk [Search.sample_row 1 (Some [x4d; x61; x6e]);
                                   Search.sample_row 4 (Some [x4d])])
                   next (Search.sample_world (Some "") (Some "") None))))
      = Val window /\
    Search.thumbnails
      (req (snd (Search.search
                   (fun _ => DbOk [Search.sample_row 1 (Some [x4d; x61; x6e]);
                                   Search.sample_row 4 (Some [x4d])])
                   next (Search.sample_world (Some "") (Some "") None))))
      = Some (map SearchRoute.encoded window).
Proof.
  apply (search_thumbnails_aligned_X7
           (fun _ => DbOk [Search.sample_row 1 (Some [x4d; x61; x6e]);
                           Search.sample_row 4 (Some [x4d])])
           (Search.sample_world (Some "") (Some "") None)
           [Search.sample_row 1 (Some [x4d; x61; x6e]);
            Search.sample_row 4 (Some [x4d])]
           eq_refl).
  intros r [Hr|[Hr|[]]]; subst r; discriminate.
Defined.

(** On the sample rows, the second thumbnail attached belongs to the fourth
    row. *)
Example search_thumbnails_shift :
  let out := Search.search Search.sample_db next
               (Search.sample_world (Some "") (Some "") None) in
  Search.searchResult (req (snd out)) = Val (firstn 5 Search.sample_rows) /\
  Search.thumbnails (req (snd out))
    = Some [SearchRoute.encoded (Search.sample_row 1 (Some [x4d; x61; x6e]));
            SearchRoute.encoded (Search.sample_row 4 (Some [x4d]));
            SearchRoute.encoded (Search.sample_row 7 (Some [x4d; x61]))].
Proof. repeat split. Qed.


(** ** The category loader, further *)

(** X9.  [getSearchCategories] publishes the categories to
    [response.locals] only when the query succeeds: the two locals are then
    the two lists of the request, of one name per row each; when the query
    fails the locals are left as they were (not set to empty arrays) and one
    line goes to the console. *)
Theorem getSearchCategories_locals_X9 :
  forall (db : string -> db_outcome Categories.major) (w : Categories.state),
    let out := Categories.getSearchCategories db next w in
    match db "SELECT * FROM major" with
    | DbErr _ =>
        Categories.searchCategoriesShortName (req (snd out))
          = Categories.searchCategoriesShortName (req w) /\
        Categories.searchCategoriesLongName (req (snd out))
          = Categories.searchCategoriesLongName (req w) /\
        console (snd out)
          = (console w
             ++ [Line "Encountered an error when performing query: SELECT * FROM major"])%list
    | DbOk result =>
        Categories.searchCategoriesShortName (req (snd out))
          = Categories.majors_short_name (req (snd out)) /\
        Categories.searchCategoriesLongName (req (snd out))
          = Categories.majors_long_name (req (snd out)) /\
        option_map (@length string)
          (Categories.searchCategoriesShortName (req (snd out)))
          = Some (length result) /\
        option_map (@length string)
          (Categories.searchCategoriesLongName (req (snd out)))
          = Some (length result) /\
        console (snd out) = console w
    end.
Proof.
  intros db w out. subst out.
  rewrite getSearchCategories_run.
  destruct (db "SELECT * FROM major") as [err|result].
  - repeat split.
  - cbn [next modify fst snd req console option_map
         Categories.searchCategoriesShortName
         Categories.searchCategoriesLongName Categories.majors_short_name
         Categories.majors_long_name].
    rewrite !length_map. repeat split.
Qed.

(** X10.  The lists do not accumulate: running [getSearchCategories] twice
    in a row leaves the request and the locals as one run does, while the
    query is sent twice. *)
Theorem getSearchCategories_twice_X10 :
  forall (db : string -> db_outcome Categories.major) (w : Categories.state),
    let once := Categories.getSearchCategories db next w in
    let twice :=
      Categories.getSearchCategories db
        (Categories.getSearchCategories db next) w in
    fst twice = Normal tt /\
    req (snd twice) = req (snd once) /\
    queries (snd twice)
      = (queries w ++ ["SELECT * FROM major"; "SELECT * FROM major"])%list /\
    continued (snd twice) = continued (snd once).
Proof.
  intros db w once twice. subst once twice.
  rewrite (getSearchCategories_run db (Categories.getSearchCategories db next)).
  rewrite !getSearchCategories_run.
  destruct (db "SELECT * FROM major") as [err|result];
    cbn [next modify fst snd req console queries continued
         Categories.searchCategoriesShortName
         Categories.searchCategoriesLongName];
    rewrite <- app_assoc; repeat split.
Qed.

(** ** The tutor-post handler, further *)

(** X11.  What [createTutorPost] answers does not depend on the database:
    for any two databases, the call returns the same way and redirects the
    same way, and the file written and [request.postCreated] are the same.
    The redirect is sent before any lookup has an outcome. *)
Theorem createTutorPost_answer_ignores_database_X11 :
  forall (mysql_format : string -> list param -> string)
         (sharp : buffer -> Z -> string -> completion TutorPost.promise)
         (major_db major_db' : string -> db_outcome TutorPost.major_id_row)
         (course_db course_db' : string -> db_outcome TutorPost.course_id_row)
         (w : TutorPost.state),
    let out := TutorPost.post_route mysql_format sharp major_db course_db w in
    let out' := TutorPost.post_route mysql_format sharp major_db' course_db' w in
    TutorPost.returned out = TutorPost.returned out' /\
    TutorPost.redirected (req (TutorPost.final out))
      = TutorPost.redirected (req (TutorPost.final out')) /\
    TutorPost.files (req (TutorPost.final out))
      = TutorPost.files (req (TutorPost.final out')) /\
    TutorPost.postCreated (req (TutorPost.final out))
      = TutorPost.postCreated (req (TutorPost.final out')).
Proof.
  intros mysql_format sharp major_db major_db' course_db course_db' w out out'.
  subst out out'. rewrite !post_route_cases.
  destruct (TutorPost.file (req w)) as [image|]; [|repeat split].
  destruct (sharp image 600 "tmp.png") as [[png|msg]|e];
    [|repeat split|repeat split].
  destruct (major_db (TutorPost.major_lookup mysql_format (req w)))
    as [err|[|m ms]];
    destruct (major_db' (TutorPost.major_lookup mysql_format (req w)))
      as [err'|[|m' ms']];
    try destruct (course_db (TutorPost.course_lookup mysql_format (req w)));
    try destruct (course_db' (TutorPost.course_lookup mysql_format (req w)));
    repeat split.
Qed.

(** X12.  When the major lookup finds no row, reading the id of the first
    row throws inside the [async] callback: the request ends with an
    unhandled [TypeError], and the course lookup is never sent. *)
Theorem createTutorPost_unknown_major_X12 :
  forall (mysql_format : string -> list param -> string)
         (sharp : buffer -> Z -> string -> completion TutorPost.promise)
         (major_db : string -> db_outcome TutorPost.major_id_row)
         (course_db : string -> db_outcome TutorPost.course_id_row)
         (w : TutorPost.state) (image png : buffer),
    TutorPost.file (req w) = Some image ->
    sharp image 600 "tmp.png" = Normal (TutorPost.Fulfilled png) ->
    major_db (TutorPost.major_lookup mysql_format (req w)) = DbOk [] ->
    let out := TutorPost.post_route mysql_format sharp major_db course_db w in
    TutorPost.returned out = Normal tt /\
    TutorPost.escaped out
      = Some (TutorPost.UnhandledRejection
                (TypeError "Cannot read properties of undefined (reading 'major_id')")) /\
    queries (TutorPost.final out)
      = (queries w ++ [TutorPost.major_lookup mysql_format (req w)])%list.
Proof.
  intros mysql_format sharp major_db course_db w image png Hfile Hsharp Hmajor
         out.
  subst out. rewrite post_route_cases. rewrite Hfile, Hsharp, Hmajor.
  repeat split.
Qed.

Lemma createTutorPost_unknown_major_X12_witness :
  TutorPost.escaped
    (TutorPost.post_route TutorPost.substitute TutorPost.sample_sharp
       (fun _ => DbOk []) TutorPost.one_course
       (start (TutorPost.sample_exchange (Some TutorPost.sample_image))))
  = Some (TutorPost.UnhandledRejection
            (TypeError "Cannot read properties of undefined (reading 'major_id')")).
Proof.
  apply (createTutorPost_unknown_major_X12
           TutorPost.substitute TutorPost.sample_sharp
           (fun _ => DbOk []) TutorPost.one_course
           (start (TutorPost.sample_exchange (Some TutorPost.sample_image)))
           TutorPost.sample_image TutorPost.sample_image
           eq_refl eq_refl eq_refl).
Defined.

(** X13.  The only file [createTutorPost] writes is [tmp.png], the same path
    for every request: once when the resize succeeds, with the resized
    image, and not at all otherwise. *)
Theorem createTutorPost_temporary_file_X13 :
  forall (mysql_format : string -> list param -> string)
         (sharp : buffer -> Z -> string -> completion TutorPost.promise)
         (major_db : string -> db_outcome TutorPost.major_id_row)
         (course_db : string -> db_outcome TutorPost.course_id_row)
         (w : TutorPost.state),
    let out := TutorPost.post_route mysql_format sharp major_db course_db w in
    TutorPost.files (req (TutorPost.final out))
    = (TutorPost.files (req w)
       ++ match TutorPost.file (req w) with
          | Some image =>
              match sharp image 600 "tmp.png" with
              | Normal (TutorPost.Fulfilled png) => [("tmp.png", png)]
              | Normal (TutorPost.Rejected _) | Throw _ => []
              end
          | None => []
          end)%list.
Proof.
  intros mysql_format sharp major_db course_db w out.
  subst out. rewrite post_route_cases.
  destruct (TutorPost.file (req w)) as [image|];
    [|now rewrite app_nil_r].
  destruct (sharp image 600 "tmp.png") as [[png|msg]|e];
    [|cbn; now rewrite app_nil_r|now rewrite app_nil_r].
  destruct (major_db (TutorPost.major_lookup mysql_format (req w)))
    as [err|[|m ms]];
    try destruct (course_db (TutorPost.course_lookup mysql_format (req w)));
    reflexivity.
Qed.

(** X14.  The post details and the user of the session are read and never
    used: two requests that differ only in them are answered the same way,
    send the same lookups and print the same lines. *)
Theorem createTutorPost_ignores_details_and_user_X14 :
  forall (mysql_format : string -> list param -> string)
         (sharp : buffer -> Z -> string -> completion TutorPost.promise)
         (major_db : string -> db_outcome TutorPost.major_id_row)
         (course_db : string -> db_outcome TutorPost.course_id_row)
         (major course info info' : param) (user user' : option Z)
         (upload : option buffer) (created : option bool)
         (written : list (string * buffer)) (targets : list string)
         (out0 : list (printed (list TutorPost.major_id_row)))
         (sent : list string) (k : nat),
    let world i u :=
      mkWorld
        (TutorPost.mkExchange (TutorPost.mkForm major course i) u upload
           created written targets)
        out0 sent k in
    let out := TutorPost.post_route mysql_format sharp major_db course_db
                 (world info user) in
    let out' := TutorPost.post_route mysql_format sharp major_db course_db
                  (world info' user') in
    TutorPost.returned out = TutorPost.returned out' /\
    TutorPost.escaped out = TutorPost.escaped out' /\
    queries (TutorPost.final out) = queries (TutorPost.final out') /\
    console (TutorPost.final out) = console (TutorPost.final out') /\
    TutorPost.redirected (req (TutorPost.final out))
      = TutorPost.redirected (req (TutorPost.final out')) /\
    TutorPost.files (req (TutorPost.final out))
      = TutorPost.files (req (TutorPost.final out')) /\
    TutorPost.postCreated (req (TutorPost.final out))
      = TutorPost.postCreated (req (TutorPost.final out')).
Proof.
  intros mysql_format sharp major_db course_db major course info info'
         user user' upload created written targets out0 sent k world out out'.
  subst out out' world. rewrite !post_route_cases.
  cbn [req console queries continued TutorPost.file TutorPost.major_lookup
       TutorPost.course_lookup TutorPost.body TutorPost.majorShortName
       TutorPost.courseNumber].
  destruct upload as [image|]; [|repeat split].
  destruct (sharp image 600 "tmp.png") as [[png|msg]|e];
    [|repeat split|repeat split].
  destruct (major_db _) as [err|[|m ms]];
    try destruct (course_db _) as [err'|courses];
    repeat split.
Qed.

(** ** The course data of the form *)

Lemma own_assign_same (key : string) (v : list CourseData.course)
  (o : CourseData.object) :
  CourseData.own key (CourseData.assign key v o) = Some v.
Proof.
  induction o as [|[k v0] o IH]; cbn [CourseData.assign CourseData.own].
  - now rewrite String.eqb_refl.
  - destruct (String.eqb_spec key k) as [E|E]; cbn [CourseData.own].
    + subst k. now rewrite String.eqb_refl.
    + destruct (String.eqb_spec key k) as [E'|_]; [contradiction|exact IH].
Qed.

Lemma own_assign_other (key key' : string) (v : list CourseData.course)
  (o : CourseData.object) :
  key' <> key ->
  CourseData.own key' (CourseData.assign key v o) = CourseData.own key' o.
Proof.
  intros Hne.
  induction o as [|[k v0] o IH]; cbn [CourseData.assign CourseData.own].
  - destruct (String.eqb_spec key' key); [contradiction|reflexivity].
  - destruct (String.eqb_spec key k) as [E|E]; cbn [CourseData.own].
    + subst k. destruct (String.eqb_spec key' key); [contradiction|reflexivity].
    + destruct (String.eqb_spec key' k); [reflexivity|exact IH].
Qed.

Lemma size_assign_new (key : string) (v : list CourseData.course)
  (o : CourseData.object) :
  CourseData.own key o = None ->
  CourseData.size (CourseData.assign key v o)
  = (CourseData.size o + length v)%nat.
Proof.
  induction o as [|[k v0] o IH]; cbn [CourseData.assign CourseData.own];
    intros Hown.
  - cbn. lia.
  - destruct (String.eqb_spec key k) as [E|E]; [discriminate|].
    cbn [CourseData.size fold_right snd] in *.
    fold (CourseData.size o). fold (CourseData.size (CourseData.assign key v o)).
    rewrite (IH Hown). lia.
Qed.

Lemma size_assign_own (key : string) (v old : list CourseData.course)
  (o : CourseData.object) :
  CourseData.own key o = Some old ->
  (CourseData.size (CourseData.assign key v o) + length old
   = CourseData.size o + length v)%nat.
Proof.
  induction o as [|[k v0] o IH]; cbn [CourseData.assign CourseData.own];
    intros Hown.
  - discriminate.
  - destruct (String.eqb_spec key k) as [E|E].
    + injection Hown as ->. cbn. lia.
    + cbn [CourseData.size fold_right snd] in *.
      fold (CourseData.size o).
      fold (CourseData.size (CourseData.assign key v o)).
      specialize (IH Hown). lia.
Qed.

(** One turn of the loop, for a major whose name no object inherits. *)
Lemma add_course_step (toUpperCase : string -> string) (item : CourseData.Row.t)
  (o : CourseData.object) (s : CourseData.state) :
  let key := CourseData.Row.majorShortName item in
  let old := match CourseData.own key o with Some l => l | None => [] end in
  CourseData.inherited key = false ->
  exists o' : CourseData.object,
    CourseData.add_course toUpperCase item o s = (Normal o', s) /\
    CourseData.own key o'
      = Some (old ++ [CourseData.option_of toUpperCase item])%list /\
    (forall key' : string,
       key' <> key -> CourseData.own key' o' = CourseData.own key' o) /\
    CourseData.size o' = Datatypes.S (CourseData.size o).
Proof.
  intros key old Hkey. subst old key.
  unfold CourseData.add_course.
  unfold CourseData.has. rewrite Hkey.
  set (key := CourseData.Row.majorShortName item) in *.
  destruct (CourseData.own key o) as [options|] eqn:Hown.
  - cbn [Bool.eqb]. rewrite Hown.
    eexists. split; [reflexivity|].
    split; [apply own_assign_same|].
    split; [intros key' Hne; now apply own_assign_other|].
    pose proof (size_assign_own key
                  (options ++ [CourseData.option_of toUpperCase item])%list
                  options o Hown) as Hsize.
    rewrite length_snoc in Hsize.
    unfold CourseData.option_of in *. fold key in Hsize. lia.
  - cbn [Bool.eqb]. rewrite own_assign_same.
    eexists. split; [reflexivity|].
    split; [apply own_assign_same|].
    split.
    + intros key' Hne. now rewrite !own_assign_other.
    + pose proof (size_assign_own key
                    ([] ++ [CourseData.option_of toUpperCase item])%list
                    [] (CourseData.assign key [] o) (own_assign_same key [] o))
        as Hsize.
      rewrite (size_assign_new key [] o Hown) in Hsize.
      cbn [app length] in Hsize.
      unfold CourseData.option_of in *. fold key in Hsize. cbn [app]. lia.
Qed.

(** The whole loop, for majors whose names no object inherits. *)
Lemma for_of_courses (toUpperCase : string -> string)
  (items : list CourseData.Row.t) :
  (forall item, In item items ->
     CourseData.inherited (CourseData.Row.majorShortName item) = false) ->
  forall (o : CourseData.object) (s : CourseData.state),
  exists o' : CourseData.object,
    CourseData.for_of items (CourseData.add_course toUpperCase) o s
      = (Normal o', s) /\
    (forall key : string,
       CourseData.own key o'
       = match CourseData.rows_of key items with
         | [] => CourseData.own key o
         | rows =>
             Some ((match CourseData.own key o with Some l => l | None => [] end)
                   ++ map (CourseData.option_of toUpperCase) rows)%list
         end) /\
    CourseData.size o' = (CourseData.size o + length items)%nat.
Proof.
  induction items as [|item items IH]; intros Hall o s.
  - exists o. cbn. repeat split. lia.
  - destruct (add_course_step toUpperCase item o s) as [o1 [Hrun [Hkey [Hother Hsize]]]].
    { apply Hall. now left. }
    destruct (IH (fun i Hi => Hall i (or_intror Hi)) o1 s)
      as [o' [Hrun' [Hown' Hsize']]].
    exists o'. split; [|split].
    + cbn [CourseData.for_of]. now rewrite (bind_normal _ _ s s o1 Hrun).
    + intros key. rewrite Hown'. unfold CourseData.rows_of. cbn [filter].
      fold (CourseData.rows_of key items).
      destruct (String.eqb_spec key (CourseData.Row.majorShortName item)) as [E|E].
      * subst key. rewrite Hkey.
        destruct (CourseData.rows_of (CourseData.Row.majorShortName item) items);
          cbn [map]; [reflexivity|].
        now rewrite <- app_assoc.
      * now rewrite (Hother key E).
    + rewrite Hsize', Hsize. cbn [length]. lia.
Qed.

(** X15.  When the course query succeeds and no major is named like a
    property every object inherits, [getTutorPostData] runs its continuation
    exactly once, as its last step, with [request.courseData] holding, under
    each major's short name, the options of the rows of that major in the
    order of the result, and no key for a major without rows; the object
    holds one option per row. *)
Theorem getTutorPostData_groups_X15 :
  forall (toUpperCase : string -> string)
         (db : string -> db_outcome CourseData.Row.t)
         (w : CourseData.state) (result : list CourseData.Row.t),
    db CourseData.q = DbOk result ->
    (forall item, In item result ->
       CourseData.inherited (CourseData.Row.majorShortName item) = false) ->
    exists (w1 : CourseData.state) (data : CourseData.object),
      (forall callback : M CourseData.state unit,
         CourseData.getTutorPostData toUpperCase db callback w
         = match callback w1 with
           | (Normal tt, w2) => (CourseData.Done, w2)
           | (Throw e, w2) => (CourseData.Raised e, w2)
           end) /\
      CourseData.courseData (req w1) = Some data /\
      queries w1 = (queries w ++ [CourseData.q])%list /\
      (forall key : string,
         CourseData.own key data
         = match CourseData.rows_of key result with
           | [] => None
           | rows => Some (map (CourseData.option_of toUpperCase) rows)
           end) /\
      CourseData.size data = length result.
Proof.
  intros toUpperCase db w result Hdb Hall.
  set (w0 := mkWorld (CourseData.set_courseData (Some []) (req w))
               (console w) (queries w ++ [CourseData.q])%list (continued w)).
  destruct (for_of_courses toUpperCase result Hall [] w0)
    as [data [Hloop [Hown Hsize]]].
  exists (mkWorld (CourseData.set_courseData (Some data) (req w0))
            (console w0) (queries w0) (continued w0)), data.
  split; [|split; [reflexivity|split; [reflexivity|split]]].
  - intros callback. unfold CourseData.getTutorPostData.
    erewrite bind_normal; [|reflexivity].
    unfold database_query. cbn [req console queries continued].
    rewrite Hdb. fold w0.
    erewrite bind_normal; [|exact Hloop].
    erewrite bind_normal; [|reflexivity].
    reflexivity.
  - intros key. rewrite (Hown key).
    destruct (CourseData.rows_of key result); reflexivity.
  - rewrite Hsize. reflexivity.
Qed.

Lemma getTutorPostData_groups_X15_witness :
  exists (w1 : CourseData.state) (data : CourseData.object),
    (forall callback : M CourseData.state unit,
       CourseData.getTutorPostData CourseData.upper
         (fun _ => DbOk CourseData.sample_courses) callback
         (start (CourseData.mkExchange None []))
       = match callback w1 with
         | (Normal tt, w2) => (CourseData.Done, w2)
         | (Throw e, w2) => (CourseData.Raised e, w2)
         end) /\
    CourseData.courseData (req w1) = Some data /\
    queries w1 = [CourseData.q] /\
    (forall key : string,
       CourseData.own key data
       = match CourseData.rows_of key CourseData.sample_courses with
         | [] => None
         | rows => Some (map (CourseData.option_of CourseData.upper) rows)
         end) /\
    CourseData.size data = 3%nat.
Proof.
  apply (getTutorPostData_groups_X15 CourseData.upper
           (fun _ => DbOk CourseData.sample_courses)
           (start (CourseData.mkExchange None []))
           CourseData.sample_courses eq_refl).
  intros item [Hi|[Hi|[Hi|[]]]]; subst item; reflexivity.
Defined.

(** The form page on the sample courses. *)
Example getTutorPostData_sample :
  let out :=
    CourseData.getTutorPostData CourseData.upper
      (fun _ => DbOk CourseData.sample_courses) CourseData.tutorPostInfo
      (start (CourseData.mkExchange None [])) in
  fst out = CourseData.Done /\
  CourseData.rendered (req (snd out))
    = [("tutorPostInfo",
        Some [("csc",
               [CourseData.mkCourse 210 "CSC 210 Introduction to Programming";
                CourseData.mkCourse 648 "CSC 648 Software Engineering"]);
              ("math", [CourseData.mkCourse 226 "MATH 226 Calculus I"])])].
Proof. repeat split. Qed.

(** X16.  When the course query fails, [getTutorPostData] neither prints
    nor rethrows the database error: the message it builds names an
    identifier that is not in scope, so the callback is rejected with a
    [ReferenceError]; the continuation is not run and
    [request.courseData] stays the empty object. *)
Theorem getTutorPostData_error_X16 :
  forall (toUpperCase : string -> string)
         (db : string -> db_outcome CourseData.Row.t)
         (callback : M CourseData.state unit)
         (w : CourseData.state) (err : string),
    db CourseData.q = DbErr err ->
    CourseData.getTutorPostData toUpperCase db callback w
    = (CourseData.RaisedReference "majorIdQuery is not defined",
       mkWorld
         {| CourseData.courseData := Some [];
            CourseData.rendered := CourseData.rendered (req w) |}
         (console w) (queries w ++ [CourseData.q])%list (continued w)).
Proof.
  intros toUpperCase db callback w err Hdb.
  unfold CourseData.getTutorPostData.
  erewrite bind_normal; [|reflexivity].
  unfold database_query. cbn [req console queries continued].
  now rewrite Hdb.
Qed.

Lemma getTutorPostData_error_X16_witness :
  CourseData.getTutorPostData CourseData.upper
    (fun _ => DbErr "connect ECONNREFUSED") CourseData.tutorPostInfo
    (start (CourseData.mkExchange None []))
  = (CourseData.RaisedReference "majorIdQuery is not defined",
     mkWorld
       {| CourseData.courseData := Some []; CourseData.rendered := [] |}
       [] [CourseData.q] 0%nat).
Proof.
  apply (getTutorPostData_error_X16 CourseData.upper
           (fun _ => DbErr "connect ECONNREFUSED") CourseData.tutorPostInfo
           (start (CourseData.mkExchange None []))
           "connect ECONNREFUSED" eq_refl).
Defined.

Lemma for_of_app {S A B} (a b : list A) (body : A -> B -> M S B) (acc : B)
  (s : S) :
  CourseData.for_of (a ++ b)%list body acc s
  = bind (CourseData.for_of a body acc) (CourseData.for_of b body) s.
Proof.
  revert acc s.
  induction a as [|x a IH]; intros acc s; cbn [app CourseData.for_of].
  - reflexivity.
  - unfold bind.
    destruct (body x acc s) as [[acc'|e] s']; [exact (IH acc' s')|reflexivity].
Qed.

(** X17.  A major named like a property every object inherits, such as
    [constructor] or [toString], is taken to be in the object already: at the
    first such row the push throws a [TypeError], the continuation is not run
    and [request.courseData] stays the empty object. *)
Theorem getTutorPostData_inherited_name_X17 :
  forall (toUpperCase : string -> string)
         (db : string -> db_outcome CourseData.Row.t)
         (callback : M CourseData.state unit) (w : CourseData.state)
         (before after : list CourseData.Row.t) (item : CourseData.Row.t),
    db CourseData.q = DbOk (before ++ item :: after)%list ->
    (forall r, In r before ->
       CourseData.inherited (CourseData.Row.majorShortName r) = false) ->
    CourseData.inherited (CourseData.Row.majorShortName item) = true ->
    CourseData.getTutorPostData toUpperCase db callback w
    = (CourseData.Raised
         (TypeError "courseData[item.majorShortName].push is not a function"),
       mkWorld
         {| CourseData.courseData := Some [];
            CourseData.rendered := CourseData.rendered (req w) |}
         (console w) (queries w ++ [CourseData.q])%list (continued w)).
Proof.
  intros toUpperCase db callback w before after item Hdb Hbefore Hitem.
  set (w0 := mkWorld (CourseData.set_courseData (Some []) (req w))
               (console w) (queries w ++ [CourseData.q])%list (continued w)).
  destruct (for_of_courses toUpperCase before Hbefore [] w0)
    as [data [Hloop [Hown _]]].
  assert (Hnone : CourseData.own (CourseData.Row.majorShortName item) data = None).
  { rewrite Hown.
    destruct (CourseData.rows_of (CourseData.Row.majorShortName item) before)
      as [|r rows] eqn:Hrows; [reflexivity|].
    assert (Hin : In r (CourseData.rows_of (CourseData.Row.majorShortName item) before))
      by (rewrite Hrows; now left).
    apply filter_In in Hin. destruct Hin as [Hin Hr].
    apply String.eqb_eq in Hr.
    specialize (Hbefore r Hin). rewrite <- Hr in Hbefore. congruence. }
  unfold CourseData.getTutorPostData.
  erewrite bind_normal; [|reflexivity].
  unfold database_query. cbn [req console queries continued].
  rewrite Hdb. fold w0.
  unfold bind at 1. rewrite for_of_app.
  erewrite bind_normal; [|exact Hloop].
  cbn [CourseData.for_of]. unfold bind at 1.
  unfold CourseData.add_course, CourseData.has.
  rewrite Hnone, Hitem. cbn [Bool.eqb]. rewrite Hnone.
  reflexivity.
Qed.

Lemma getTutorPostData_inherited_name_X17_witness :
  fst (CourseData.getTutorPostData CourseData.upper
         (fun _ => DbOk (CourseData.sample_courses
                         ++ [CourseData.Row.mk 101 3 "Building" "constructor"])%list)
         CourseData.tutorPostInfo
         (start (CourseData.mkExchange None [])))
  = CourseData.Raised
      (TypeError "courseData[item.majorShortName].push is not a function").
Proof.
  rewrite (getTutorPostData_inherited_name_X17 CourseData.upper
             (fun _ => DbOk (CourseData.sample_courses
                             ++ [CourseData.Row.mk 101 3 "Building" "constructor"])%list)
             CourseData.tutorPostInfo
             (start (CourseData.mkExchange None []))
             CourseData.sample_courses []
             (CourseData.Row.mk 101 3 "Building" "constructor")
             eq_refl).
  - reflexivity.
  - intros r [Hr|[Hr|[Hr|[]]]]; subst r; reflexivity.
  - reflexivity.
Defined.

(** ** The dashboard, further *)

(** X18.  [loadDashboard] renders the dashboard exactly once, with one
    entry per row, unless the result has exactly one row, in which case it
    throws and renders nothing.  When the query fails it renders an empty
    list and prints one line naming the query. *)
Theorem loadDashboard_outcomes_X18 :
  forall (db : string -> db_outcome Dashboard.row) (w : Dashboard.state),
    let out := Dashboard.loadDashboard db w in
    match db (Dashboard.inbox_query 2) with
    | DbOk [_] =>
        fst out
          = Throw (TypeError "Cannot read properties of undefined (reading 'is_unread')") /\
        Dashboard.rendered (req (snd out)) = Dashboard.rendered (req w)
    | DbOk result =>
        fst out = Normal tt /\
        exists messages : list Dashboard.message,
          Dashboard.rendered (req (snd out))
            = (Dashboard.rendered (req w) ++ [("studentDashboard", messages)])%list /\
          length messages = length result
    | DbErr _ =>
        fst out = Normal tt /\
        Dashboard.rendered (req (snd out))
          = (Dashboard.rendered (req w) ++ [("studentDashboard", [])])%list /\
        console (snd out)
          = (console w
             ++ [Line ("Encountered an error when performing query: "
                       ++ Dashboard.inbox_query 2)])%list
    end.
Proof.
  intros db w out. subst out.
  destruct (db (Dashboard.inbox_query 2)) as [err|[|r0 [|r1 rest]]] eqn:Hdb.
  - rewrite (loadDashboard_failed db w err Hdb). repeat split.
  - rewrite (loadDashboard_empty db w Hdb). split; [reflexivity|].
    exists []. split; reflexivity.
  - rewrite (loadDashboard_single db w r0 Hdb). split; reflexivity.
  - rewrite (loadDashboard_rows db w _ r1 Hdb eq_refl). split; [reflexivity|].
    eexists. split; [reflexivity|]. apply length_map.
Qed.

(** ** The dashboard route *)

Lemma within_run {A} (m : M Dashboard.state A) (w : DashboardRoute.state)
  (c : completion A) (w' : Dashboard.state) :
  m (mkWorld (DashboardRoute.dashboard (req w)) (console w) (queries w)
       (continued w)) = (c, w') ->
  DashboardRoute.within m w
  = (c,
     mkWorld
       {| DashboardRoute.loginValidated := DashboardRoute.loginValidated (req w);
          DashboardRoute.redirected := DashboardRoute.redirected (req w);
          DashboardRoute.dashboard := req w' |}
       (console w') (queries w') (continued w')).
Proof.
  intros Hm. unfold DashboardRoute.within. now rewrite Hm.
Qed.

(** X19.  The dashboard route keeps the dashboard from a request only when
    [req.loginValidated] is exactly [false]: it then redirects to the login
    page, sends no query and renders nothing.  For every other value,
    [undefined] included, it answers as [loadDashboard] does and redirects
    nowhere. *)
Theorem dashboard_page_gate_X19 :
  forall (db : string -> db_outcome Dashboard.row) (w : DashboardRoute.state),
    let out := DashboardRoute.dashboard_page db w in
    let inner :=
      Dashboard.loadDashboard db
        (mkWorld (DashboardRoute.dashboard (req w)) (console w) (queries w)
           (continued w)) in
    match DashboardRoute.loginValidated (req w) with
    | Val false =>
        fst out = Normal tt /\
        DashboardRoute.redirected (req (snd out))
          = (DashboardRoute.redirected (req w) ++ ["/login"])%list /\
        queries (snd out) = queries w /\
        DashboardRoute.dashboard (req (snd out)) = DashboardRoute.dashboard (req w)
    | Val true | Text _ | Undefined =>
        fst out = fst inner /\
        DashboardRoute.redirected (req (snd out))
          = DashboardRoute.redirected (req w) /\
        queries (snd out) = (queries w ++ [Dashboard.inbox_query 2])%list /\
        DashboardRoute.dashboard (req (snd out)) = req (snd inner)
    end.
Proof.
  intros db w out inner. subst out.
  assert (Hsent : queries (snd inner)
                  = (queries w ++ [Dashboard.inbox_query 2])%list).
  { subst inner.
    destruct (db (Dashboard.inbox_query 2)) as [err|[|r0 [|r1 rest]]] eqn:Hdb.
    - now rewrite (loadDashboard_failed db _ err Hdb).
    - now rewrite (loadDashboard_empty db _ Hdb).
    - now rewrite (loadDashboard_single db _ r0 Hdb).
    - now rewrite (loadDashboard_rows db _ _ r1 Hdb eq_refl). }
  unfold DashboardRoute.dashboard_page.
  erewrite bind_normal; [|reflexivity].
  destruct (DashboardRoute.loginValidated (req w)) as [|text|[|]] eqn:Hv.
  - rewrite (within_run _ w (fst inner) (snd inner))
      by (subst inner; apply surjective_pairing).
    repeat split. exact Hsent.
  - rewrite (within_run _ w (fst inner) (snd inner))
      by (subst inner; apply surjective_pairing).
    repeat split. exact Hsent.
  - rewrite (within_run _ w (fst inner) (snd inner))
      by (subst inner; apply surjective_pairing).
    repeat split. exact Hsent.
  - repeat split.
Qed.

(** The login middleware left nothing on the request: the dashboard of user
    2 is rendered. *)
Example dashboard_page_without_flag :
  let out := DashboardRoute.dashboard_page Dashboard.sample_inbox
               (DashboardRoute.sample_world Undefined) in
  fst out = Normal tt /\
  DashboardRoute.redirected (req (snd out)) = [] /\
  length (Dashboard.rendered (DashboardRoute.dashboard (req (snd out)))) = 1%nat.
Proof. repeat split. Qed.

(** ** The tutor-post handler: how a request ends *)

(** X20.  A request whose image is resized ends without an escaped error
    exactly when the major lookup finds a row and the course lookup
    succeeds, whether or not it finds a course: a course that does not exist
    is passed over in silence. *)
Theorem createTutorPost_ends_quietly_X20 :
  forall (mysql_format : string -> list param -> string)
         (sharp : buffer -> Z -> string -> completion TutorPost.promise)
         (major_db : string -> db_outcome TutorPost.major_id_row)
         (course_db : string -> db_outcome TutorPost.course_id_row)
         (w : TutorPost.state) (image png : buffer),
    TutorPost.file (req w) = Some image ->
    sharp image 600 "tmp.png" = Normal (TutorPost.Fulfilled png) ->
    let out := TutorPost.post_route mysql_format sharp major_db course_db w in
    TutorPost.escaped out = None <->
    (exists (m : TutorPost.major_id_row) (ms : list TutorPost.major_id_row)
            (courses : list TutorPost.course_id_row),
       major_db (TutorPost.major_lookup mysql_format (req w)) = DbOk (m :: ms) /\
       course_db (TutorPost.course_lookup mysql_format (req w)) = DbOk courses).
Proof.
  intros mysql_format sharp major_db course_db w image png Hfile Hsharp out.
  subst out. rewrite post_route_cases. rewrite Hfile, Hsharp.
  destruct (major_db (TutorPost.major_lookup mysql_format (req w)))
    as [err|[|m ms]].
  - split; [discriminate|]. intros [m [ms [courses [H _]]]]. discriminate.
  - split; [discriminate|]. intros [m [ms [courses [H _]]]]. discriminate.
  - destruct (course_db (TutorPost.course_lookup mysql_format (req w)))
      as [err|courses].
    + split; [discriminate|]. intros [m' [ms' [courses [_ H]]]]. discriminate.
    + split; [|reflexivity]. intros _. now exists m, ms, courses.
Qed.

Lemma createTutorPost_ends_quietly_X20_witness :
  TutorPost.escaped
    (TutorPost.post_route TutorPost.substitute TutorPost.sample_sharp
       TutorPost.one_major (fun _ => DbOk [])
       (start (TutorPost.sample_exchange (Some TutorPost.sample_image))))
  = None.
Proof.
  apply (createTutorPost_ends_quietly_X20
           TutorPost.substitute TutorPost.sample_sharp
           TutorPost.one_major (fun _ => DbOk [])
           (start (TutorPost.sample_exchange (Some TutorPost.sample_image)))
           TutorPost.sample_image TutorPost.sample_image eq_refl eq_refl).
  now exists {| TutorPost.major_id := 3 |}, [], [].
Defined.

(** X21.  When the image library rejects the image, the rejection is caught:
    one line is printed, no lookup is sent, no error escapes, and the
    redirect has been sent all the same. *)
Theorem createTutorPost_rejected_image_X21 :
  forall (mysql_format : string -> list param -> string)
         (sharp : buffer -> Z -> string -> completion TutorPost.promise)
         (major_db : string -> db_outcome TutorPost.major_id_row)
         (course_db : string -> db_outcome TutorPost.course_id_row)
         (w : TutorPost.state) (image : buffer) (msg : string),
    TutorPost.file (req w) = Some image ->
    sharp image 600 "tmp.png" = Normal (TutorPost.Rejected msg) ->
    let out := TutorPost.post_route mysql_format sharp major_db course_db w in
    TutorPost.returned out = Normal tt /\
    TutorPost.escaped out = None /\
    queries (TutorPost.final out) = queries w /\
    console (TutorPost.final out)
      = (console w ++ [Line ("downisze issue Error: " ++ msg)])%list /\
    TutorPost.redirected (req (TutorPost.final out))
      = (TutorPost.redirected (req w) ++ ["/"])%list.
Proof.
  intros mysql_format sharp major_db course_db w image msg Hfile Hsharp out.
  subst out. rewrite post_route_cases. rewrite Hfile, Hsharp.
  repeat split.
Qed.

Lemma createTutorPost_rejected_image_X21_witness :
  console
    (TutorPost.final
       (TutorPost.post_route TutorPost.substitute TutorPost.sample_sharp
          TutorPost.one_major TutorPost.one_course
          (start (TutorPost.sample_exchange (Some TutorPost.sample_text)))))
  = [Line "downisze issue Error: Input buffer contains unsupported image format"].
Proof.
  apply (createTutorPost_rejected_image_X21
           TutorPost.substitute TutorPost.sample_sharp
           TutorPost.one_major TutorPost.one_course
           (start (TutorPost.sample_exchange (Some TutorPost.sample_text)))
           TutorPost.sample_text
           "Input buffer contains unsupported image format"
           eq_refl eq_refl).
Defined.
